(** * Threat-feed checker: pagination, matching and report rendering

    A shallow embedding of [ThreatFeedChecker] (src/src/types.ts, the part
    that follows the type declarations) together with the properties its
    specification states about it.

    Conventions of the embedding:
    - a JavaScript string is a [string]; every character stands for one
      code unit, so [String.length] is the [.length] of the source;
    - a JavaScript number that the code only uses as a count or a page
      index is a [Z] ([nat] for the counters the code itself increments
      from zero); [NaN] is written out where it can arise ([option Z]);
    - an HTTP endpoint is a function from the request the code builds to
      either a response or the error that [axios.get] throws; the requests
      a fetcher makes are recorded, in order, next to its outcome;
    - a [while (hasMore)] loop is a function by recursion on a fuel
      argument; running out of fuel is the outcome [OutOfFuel], which is
      kept apart from a returned list and from a thrown error;
    - logging ([core.info], [debugLog]) is left out. *)

From Stdlib Require Import ZArith Ascii String List Sorting.Permutation Sorting.Sorted.
From stdpp Require Import base option list gmap strings pretty.

Local Open Scope string_scope.
Local Open Scope Z_scope.
Local Open Scope list_scope.

(** ** Data model (the interfaces at the top of the file) *)

Record Hash := { h_archive : string; h_hash : string; h_type : string }.

(** [indicators: Record<string, any>]: only the keys are ever read
    ([Object.keys]); the list is in the object's enumeration order and the
    values are kept as opaque text. *)
Record PhylumThreatPackage := {
  created : string;
  ecosystem : string;
  hashes : option (list Hash);
  indicators : list (string * string);
  name : string;
  version : string
}.

Record VeracodeWorkspace := {
  ws_id : string; ws_name : string; ws_created : string; ws_lastUpdated : string
}.

Record VeracodeProject := {
  pr_id : string; pr_name : string; pr_workspaceId : string;
  pr_created : string; pr_lastUpdated : string
}.

(** [vulnerabilities: any[]]: only its length is read. *)
Record VeracodeLibrary := {
  lib_id : string; lib_name : string; lib_version : string;
  lib_ecosystem : string; lib_license : string; lib_vulnerabilities : list string
}.

(** The element type of [allLibraries]. *)
Record InventoryTriple := {
  library : VeracodeLibrary; project : VeracodeProject; workspace : VeracodeWorkspace
}.

Record VulnerableMatch := {
  m_threatPackage : PhylumThreatPackage;
  m_library : VeracodeLibrary;
  m_project : VeracodeProject;
  m_workspace : VeracodeWorkspace
}.

(** ** Errors and outcomes *)

Inductive JsError :=
| AxiosError (message : string)
| RangeError (message : string)
| TypeError (message : string).

(** What a call of [axios.get] gives: a response or a thrown error. *)
Inductive Result (A : Type) :=
| Ok (response : A)
| Err (error : JsError).
Arguments Ok {A} _.
Arguments Err {A} _.

(** What a call of one of the methods gives. *)
Inductive Outcome (A : Type) :=
| Returned (value : A)
| Thrown (error : JsError)
| OutOfFuel.
Arguments Returned {A} _.
Arguments Thrown {A} _.
Arguments OutOfFuel {A}.

(** ** findVulnerableMatches *)

Module MatchEngine.

(** [threatPackage.name === library.name && threatPackage.version === library.version] *)
Definition is_match (threatPackage : PhylumThreatPackage) (lib : VeracodeLibrary) : bool :=
  String.eqb (name threatPackage) (lib_name lib)
  && String.eqb (version threatPackage) (lib_version lib).

Definition mkMatch (threatPackage : PhylumThreatPackage) (t : InventoryTriple) : VulnerableMatch :=
  {| m_threatPackage := threatPackage; m_library := library t;
     m_project := project t; m_workspace := workspace t |}.

(** The inner [for ... of allLibraries] loop, pushing onto [matches]. *)
Definition inner_loop (threatPackage : PhylumThreatPackage)
    (allLibraries : list InventoryTriple) (matches : list VulnerableMatch)
  : list VulnerableMatch :=
  fold_left (fun matches t =>
               if is_match threatPackage (library t)
               then matches ++ [mkMatch threatPackage t]
               else matches)
            allLibraries matches.

(** The outer [for ... of threatPackages] loop; [matches] starts empty. *)
Definition findVulnerableMatches (threatPackages : list PhylumThreatPackage)
    (allLibraries : list InventoryTriple) : list VulnerableMatch :=
  fold_left (fun matches threatPackage => inner_loop threatPackage allLibraries matches)
            threatPackages [].

(** The specification's wording: every pair of the cross product, threats
    outermost, that agrees on name and version, each kept once. *)
Definition qualifies (p : PhylumThreatPackage * InventoryTriple) : bool :=
  bool_decide (name (fst p) = lib_name (library (snd p))
               ∧ version (fst p) = lib_version (library (snd p))).

Definition matches_spec (threats : list PhylumThreatPackage)
    (inventory : list InventoryTriple) : list VulnerableMatch :=
  List.map (fun p => mkMatch (fst p) (snd p))
           (List.filter qualifies (list_prod threats inventory)).

End MatchEngine.

(** ** The two upstream services *)

Module Http.

(** A scalar of a JSON body, as far as the code looks at one: the [cursor]
    of a threat-feed page is declared [number | undefined] but is only
    ever tested for truthiness and pasted into the next URL. *)
Inductive JsValue :=
| JsUndefined
| JsNull
| JsNumber (z : Z)
| JsString (s : string).

(** [if (v)]: ToBoolean on the values above. *)
Definition truthy (v : JsValue) : bool :=
  match v with
  | JsUndefined | JsNull => false
  | JsNumber z => negb (z =? 0)
  | JsString s => negb (String.eqb s "")
  end.

Record PhylumThreatFeedResponse := {
  tf_has_next : bool;
  tf_has_previous : bool;
  tf_packages : list PhylumThreatPackage;
  tf_cursor : JsValue
}.

(** The two URLs [fetchAllThreatPackages] builds. *)
Inductive PhylumRequest :=
| FirstPage                       (* https://threats.phylum.io/?per_page=50 *)
| AfterCursor (cursor : JsValue). (* https://threats.phylum.io/?cursor=${cursor}&per_page=50 *)

Definition PhylumApi : Type := PhylumRequest -> Result PhylumThreatFeedResponse.

(** [page: { size, totalElements, totalPages, number }]; the code reads
    every field behind [?.] and [|| 0], so each may be missing. *)
Record PageInfo := {
  pi_size : option Z;
  pi_totalElements : option Z;
  pi_totalPages : option Z;
  pi_number : option Z
}.

Record WorkspacesEmbedded := { e_workspaces : option (list VeracodeWorkspace) }.
Record ProjectsEmbedded := { e_projects : option (list VeracodeProject) }.
Record LibrariesEmbedded := { e_libraries : option (list VeracodeLibrary) }.

Record VeracodeWorkspacesResponse := {
  wr_embedded : option WorkspacesEmbedded
}.

Record VeracodeProjectsResponse := {
  pr_embedded : option ProjectsEmbedded;
  pr_page : option PageInfo
}.

Record VeracodeLibrariesResponse := {
  lr_embedded : option LibrariesEmbedded;
  lr_page : option PageInfo
}.

(** The Veracode endpoints by the query they are sent. The workspace
    endpoint takes the [page] query parameter of the platform as an
    option: [None] is a URL without one. *)
Record VeracodeApi := {
  getWorkspaces : option nat -> Result VeracodeWorkspacesResponse;
    (* /srcclr/v3/workspaces *)
  getProjects : string -> nat -> Result VeracodeProjectsResponse;
    (* /srcclr/v3/workspaces/${workspaceId}/projects?page=${page}&size=100 *)
  getLibraries : string -> string -> nat -> Result VeracodeLibrariesResponse
    (* /srcclr/v3/workspaces/${workspaceId}/projects/${projectId}/libraries?page=${page}&size=100 *)
}.

(** [x || 0] on a number that may be missing. *)
Definition or0 (x : option Z) : Z :=
  match x with
  | Some z => if z =? 0 then 0 else z
  | None => 0
  end.

End Http.

(** ** fetchAllThreatPackages *)

Module ThreatFeed.
Import Http.

(** [cursor ? `https://threats.phylum.io/?cursor=${cursor}&per_page=50`
           : 'https://threats.phylum.io/?per_page=50'] *)
Definition url_of (cursor : JsValue) : PhylumRequest :=
  if truthy cursor then AfterCursor cursor else FirstPage.

Section Fetcher.
Variable phylum : PhylumApi.

(** One run of the [while (hasMore)] loop from the state
    ([allPackages], [cursor]); [requests] is the list of calls made so
    far ([requestCount] is its length). *)
Fixpoint threat_loop (fuel : nat) (allPackages : list PhylumThreatPackage)
    (cursor : JsValue) (requests : list PhylumRequest)
  : Outcome (list PhylumThreatPackage) * list PhylumRequest :=
  match fuel with
  | O => (OutOfFuel, requests)
  | S fuel' =>
      let url := url_of cursor in
      let requests' := requests ++ [url] in
      match phylum url with
      | Ok response =>
          let allPackages' := allPackages ++ tf_packages response in
          if truthy (tf_cursor response)
          then threat_loop fuel' allPackages' (tf_cursor response) requests'
          else (Returned allPackages', requests')
      | Err error => (Thrown error, requests')
      end
  end.

Definition fetchAllThreatPackages (fuel : nat)
  : Outcome (list PhylumThreatPackage) * list PhylumRequest :=
  threat_loop fuel [] JsUndefined [].

(** The pages the feed serves when the cursors are followed from
    [cursor]: every page but the last carries a truthy cursor. *)
Inductive served_from : JsValue -> list PhylumThreatFeedResponse -> Prop :=
| served_last cursor response :
    phylum (url_of cursor) = Ok response ->
    truthy (tf_cursor response) = false ->
    served_from cursor [response]
| served_more cursor response rest :
    phylum (url_of cursor) = Ok response ->
    truthy (tf_cursor response) = true ->
    served_from (tf_cursor response) rest ->
    served_from cursor (response :: rest).

(** The same walk cut short by a failing request after [pages]. *)
Inductive fails_from : JsValue -> list PhylumThreatFeedResponse -> JsError -> Prop :=
| fails_now cursor error :
    phylum (url_of cursor) = Err error ->
    fails_from cursor [] error
| fails_later cursor response rest error :
    phylum (url_of cursor) = Ok response ->
    truthy (tf_cursor response) = true ->
    fails_from (tf_cursor response) rest error ->
    fails_from cursor (response :: rest) error.

End Fetcher.

(** The requests of a walk that starts at [cursor] and goes on after
    each of [pages]. *)
Definition requests_along (cursor : JsValue) (pages : list PhylumThreatFeedResponse)
  : list PhylumRequest :=
  url_of cursor :: List.map (fun response => url_of (tf_cursor response)) pages.

(** A feed for tests: it serves [pages] one after the other; the cursor
    of a page is the index of its successor and the last page carries
    [final]. *)
Definition scripted_feed (pages : list (list PhylumThreatPackage)) (final : JsValue)
  : PhylumApi :=
  fun request =>
    let i := match request with
             | FirstPage => 0%nat
             | AfterCursor (JsNumber z) => Z.to_nat z
             | AfterCursor _ => List.length pages
             end in
    match nth_error pages i with
    | Some items =>
        Ok {| tf_has_next := Nat.ltb (S i) (List.length pages);
              tf_has_previous := Nat.ltb 0 i;
              tf_packages := items;
              tf_cursor := if Nat.ltb (S i) (List.length pages)
                           then JsNumber (Z.of_nat (S i)) else final |}
    | None => Err (AxiosError "Request failed with status code 404")
    end.

End ThreatFeed.

(** ** fetchAllWorkspaces, fetchProjectsForWorkspace, fetchLibrariesForProject *)

Module Inventory.
Import Http.

(** [fetchAllWorkspaces]; next to the outcome, the [page] parameter of
    each request it makes ([None]: the URL carries none). *)
Definition fetchAllWorkspaces (veracode : VeracodeApi)
  : Outcome (list VeracodeWorkspace) * list (option nat) :=
  (* const url = '/srcclr/v3/workspaces' *)
  let requests := [None] in
  match getWorkspaces veracode None with
  | Ok response =>
      (* response.data._embedded.workspaces, then workspaces.length *)
      match wr_embedded response with
      | Some embedded =>
          match e_workspaces embedded with
          | Some workspaces => (Returned workspaces, requests)
          | None =>
              (Thrown (TypeError "Cannot read properties of undefined (reading 'length')"),
               requests)
          end
      | None =>
          (Thrown (TypeError "Cannot read properties of undefined (reading 'workspaces')"),
           requests)
      end
  | Err error => (Thrown error, requests)   (* catch { ...; throw error } *)
  end.

(** The loop of [fetchProjectsForWorkspace] (lines 298-367) and of
    [fetchLibrariesForProject] (lines 385-454): the two bodies are the
    same text up to the URL, the response type and the name of the
    embedded array, which are the variables of this section. *)
Section PageNumberLoop.
Context {Item Response : Type}.
Variable fetch : nat -> Result Response.              (* axios.get at ?page=${page} *)
Variable embedded_items : Response -> option (list Item). (* _embedded?.<items> *)
Variable page_info : Response -> option PageInfo.         (* page *)

(** [response.data.page?.totalPages || 0] and [response.data.page?.number || 0] *)
Definition totalPages_of (response : Response) : Z :=
  or0 (page_info response ≫= pi_totalPages).
Definition currentPage_of (response : Response) : Z :=
  or0 (page_info response ≫= pi_number).

(** One run of the [while (hasMore)] loop from the state
    ([allItems], [page]); [requests] lists the page indices asked for so
    far ([requestCount] is its length). *)
Fixpoint page_loop (fuel : nat) (allItems : list Item) (page : nat)
    (requests : list nat) : Outcome (list Item) * list nat :=
  match fuel with
  | O => (OutOfFuel, requests)
  | S fuel' =>
      let requests' := requests ++ [page] in
      match fetch page with
      | Ok response =>
          let allItems' :=
            match embedded_items response with
            | Some items => allItems ++ items
            | None => allItems
            end in
          if (currentPage_of response <? totalPages_of response - 1)%Z
          then page_loop fuel' allItems' (S page) requests'
          else (Returned allItems', requests')       (* hasMore = false *)
      | Err error =>
          if Nat.eqb page 0
          then (Returned [], requests')                (* return [] *)
          else (Returned allItems, requests')        (* hasMore = false *)
      end
  end.

(** The items of page [p], as the loop would push them. *)
Definition page_items (p : nat) : list Item :=
  match fetch p with
  | Ok response => default [] (embedded_items response)
  | Err _ => []
  end.



(** Page [p] is served and the loop goes on after it. *)
Definition continues (p : nat) : Prop :=
  ∃ response, fetch p = Ok response
    ∧ (currentPage_of response < totalPages_of response - 1)%Z.

End PageNumberLoop.

Definition projects_of (response : VeracodeProjectsResponse) : option (list VeracodeProject) :=
  pr_embedded response ≫= e_projects.
Definition libraries_of (response : VeracodeLibrariesResponse) : option (list VeracodeLibrary) :=
  lr_embedded response ≫= e_libraries.

Definition fetchProjectsForWorkspace (veracode : VeracodeApi) (fuel : nat)
    (workspaceId : string) : Outcome (list VeracodeProject) * list nat :=
  page_loop (getProjects veracode workspaceId) projects_of pr_page fuel [] 0%nat [].

Definition fetchLibrariesForProject (veracode : VeracodeApi) (fuel : nat)
    (workspaceId projectId : string) : Outcome (list VeracodeLibrary) * list nat :=
  page_loop (getLibraries veracode workspaceId projectId) libraries_of lr_page fuel [] 0%nat [].

(** Endpoints for tests: each serves the pages of a fixed list, page [p]
    reporting [number = p] and [totalPages = length pages]; a request
    without a [page] parameter is answered with page 0. *)
Definition page_info_for {A} (pages : list (list A)) (p : nat) : PageInfo :=
  {| pi_size := Some 100;
     pi_totalElements := Some (Z.of_nat (List.length (concat pages)));
     pi_totalPages := Some (Z.of_nat (List.length pages));
     pi_number := Some (Z.of_nat p) |}.

Definition paged_workspaces (pages : list (list VeracodeWorkspace))
  : option nat -> Result VeracodeWorkspacesResponse :=
  fun page =>
    Ok {| wr_embedded :=
            Some {| e_workspaces := Some (default [] (pages !! default 0%nat page)) |} |}.

Definition paged_projects (pages : list (list VeracodeProject))
  : nat -> Result VeracodeProjectsResponse :=
  fun page =>
    Ok {| pr_embedded := Some {| e_projects := Some (default [] (pages !! page)) |};
          pr_page := Some (page_info_for pages page) |}.

Definition paged_libraries (pages : list (list VeracodeLibrary))
  : nat -> Result VeracodeLibrariesResponse :=
  fun page =>
    Ok {| lr_embedded := Some {| e_libraries := Some (default [] (pages !! page)) |};
          lr_page := Some (page_info_for pages page) |}.

(** The same endpoint with page [k] out of order. *)
Definition failing_at {R} (k : nat) (error : JsError) (endpoint : nat -> Result R)
  : nat -> Result R :=
  fun page => if Nat.eqb page k then Err error else endpoint page.


End Inventory.

(** ** Strings, arrays and the sort of the platform *)

Module Js.

Definition LF : string := String (ascii_of_nat 10) EmptyString.

(** [s.repeat(count)] *)
Fixpoint repeat_string (s : string) (count : nat) : string :=
  match count with
  | O => ""
  | S count' => s +:+ repeat_string s count'
  end.

(** [s.padEnd(targetLength)]: spaces on the right up to [targetLength];
    a string that is long enough already comes back as it is. *)
Definition padEnd (s : string) (targetLength : nat) : string :=
  s +:+ repeat_string " " (targetLength - String.length s).

(** [s.split('T')[0]]: the text before the first [T]. *)
Fixpoint before_T (s : string) : string :=
  match s with
  | EmptyString => ""
  | String c rest => if Ascii.eqb c "T" then "" else String c (before_T rest)
  end.

(** [s || 'Unknown'] *)
Definition orUnknown (s : string) : string :=
  if String.eqb s "" then "Unknown" else s.

(** [haystack.includes(needle)] *)
Definition includes (haystack needle : string) : Prop :=
  ∃ before after, haystack = before +:+ needle +:+ after.

(** Sequencing of calls that may throw. *)
Definition bind {A B} (o : Outcome A) (k : A -> Outcome B) : Outcome B :=
  match o with
  | Returned a => k a
  | Thrown error => Thrown error
  | OutOfFuel => OutOfFuel
  end.

(** [array.forEach(x => ...)] where the callback updates the variables
    [state] of the enclosing function and may throw. *)
Fixpoint forEach {State A} (callback : State -> A -> Outcome State)
    (array : list A) (state : State) : Outcome State :=
  match array with
  | [] => Returned state
  | x :: rest => bind (callback state x) (forEach callback rest)
  end.

(** [Array.prototype.sort(compare)]. The result of a comparison is a
    number or [NaN] ([None]), and [NaN] counts as [+0]. The sort is stable;
    for a consistent comparator that fixes the result, which is computed
    here by insertion from the right. *)
Section Sort.
Context {A : Type}.
Variable compare : A -> A -> option Z.

Definition stays_before (a b : A) : bool :=
  match compare a b with
  | Some v => (v <=? 0)%Z
  | None => true
  end.

Fixpoint insert_sorted (a : A) (sorted : list A) : list A :=
  match sorted with
  | [] => [a]
  | b :: rest => if stays_before a b then a :: b :: rest else b :: insert_sorted a rest
  end.

Definition sort (array : list A) : list A := foldr insert_sorted [] array.
End Sort.

(** Arrays are objects: a variable holds a reference into a store, and
    [sort] rearranges the array it is called on. *)
Definition ref := positive.

Section Store.
Context {A : Type}.

Definition array_at (store : gmap ref (list A)) (r : ref) : list A :=
  default [] (store !! r).

(** [[...array]]: a new array with the same elements. *)
Definition spread (store : gmap ref (list A)) (r : ref) : ref * gmap ref (list A) :=
  let copy := fresh (dom store) in
  (copy, <[copy := array_at store r]> store).

(** [array.sort(compare)], in place. *)
Definition sort_in_place (compare : A -> A -> option Z)
    (store : gmap ref (list A)) (r : ref) : gmap ref (list A) :=
  <[r := sort compare (array_at store r)]> store.
End Store.

End Js.

(** ** generateSummary and generateMaliciousPackagesTable *)

Module Report.
Import Js.

(** The clock and the date parser of the platform:
    - [Date_parse s] is [new Date(s).getTime()], [None] for [NaN]
      (an invalid date);
    - [toISOString t] is [new Date(t).toISOString()] for a valid time
      value [t]; on an invalid date the method throws a [RangeError];
    - [now] is the time value of [new Date()]. *)
Section Renderer.
Variable Date_parse : string -> option Z.
Variable toISOString : Z -> string.

Definition summary_heading (now : Z) (count : nat) : string :=
  "THREAT FEED SECURITY ALERT SUMMARY" +:+ LF
  +:+ "=====================================" +:+ LF +:+ LF
  +:+ "Generated: " +:+ toISOString now +:+ LF
  +:+ "Total vulnerable packages found: " +:+ pretty count +:+ LF +:+ LF.

Definition clean_message : string :=
  "✅ No vulnerable packages found in your projects." +:+ LF
  +:+ "All packages in your Veracode SCA projects are clean." +:+ LF.

Definition alert_message : string :=
  "🚨 IMMEDIATE ATTENTION REQUIRED!" +:+ LF
  +:+ "The following packages in your projects match known threats:" +:+ LF +:+ LF.

Definition action_required : string :=
  LF +:+ "⚠️  ACTION REQUIRED:" +:+ LF
  +:+ "1. Review the above packages immediately" +:+ LF
  +:+ "2. Update or remove vulnerable packages" +:+ LF
  +:+ "3. Check for alternative secure packages" +:+ LF
  +:+ "4. Run security scans on affected projects" +:+ LF.

(** The text one call of the [matches.forEach] callback appends. *)
Definition match_block (index : nat) (m : VulnerableMatch) : string :=
  pretty (index + 1)%nat +:+ ". Package: " +:+ name (m_threatPackage m)
    +:+ "@" +:+ version (m_threatPackage m) +:+ LF
  +:+ "   Ecosystem: " +:+ ecosystem (m_threatPackage m) +:+ LF
  +:+ "   Threat Indicators: "
    +:+ String.concat ", " (List.map fst (indicators (m_threatPackage m))) +:+ LF
  +:+ "   Workspace: " +:+ ws_name (m_workspace m)
    +:+ " (" +:+ ws_id (m_workspace m) +:+ ")" +:+ LF
  +:+ "   Project: " +:+ pr_name (m_project m)
    +:+ " (" +:+ pr_id (m_project m) +:+ ")" +:+ LF
  +:+ "   Library ID: " +:+ lib_id (m_library m) +:+ LF
  +:+ "   Library License: " +:+ lib_license (m_library m) +:+ LF
  +:+ "   Threat Created: " +:+ created (m_threatPackage m) +:+ LF
  +:+ "   Library Vulnerabilities: "
    +:+ pretty (List.length (lib_vulnerabilities (m_library m))) +:+ LF
  +:+ LF.

(** [matches.forEach((match, index) => { summary += ... })] *)
Fixpoint match_blocks (index : nat) (matches : list VulnerableMatch) (summary : string)
  : string :=
  match matches with
  | [] => summary
  | m :: rest => match_blocks (S index) rest (summary +:+ match_block index m)
  end.

Definition generateSummary (now : Z) (matches : list VulnerableMatch) : string :=
  let summary := summary_heading now (List.length matches) in
  if Nat.eqb (List.length matches) 0
  then summary +:+ clean_message
  else match_blocks 0 matches (summary +:+ alert_message) +:+ action_required.

(** The summary of no match, around its timestamp. *)
Definition summary_before_timestamp : string :=
  "THREAT FEED SECURITY ALERT SUMMARY" +:+ LF
  +:+ "=====================================" +:+ LF +:+ LF
  +:+ "Generated: ".

Definition clean_summary_after_timestamp : string :=
  LF +:+ "Total vulnerable packages found: 0" +:+ LF +:+ LF +:+ clean_message.

(** *** The table *)

Definition table_heading (now : Z) (count : nat) : string :=
  "MALICIOUS PACKAGES FROM THREAT FEED" +:+ LF
  +:+ "=====================================" +:+ LF +:+ LF
  +:+ "Generated: " +:+ toISOString now +:+ LF
  +:+ "Total packages in threat feed: " +:+ pretty count +:+ LF +:+ LF.

Definition table_note : string :=
  LF
  +:+ "Note: This table contains all packages from the Phylum threat feed." +:+ LF
  +:+ "Packages that match your project libraries are highlighted in the summary.txt file."
  +:+ LF.

(** [(a, b) => new Date(b.created).getTime() - new Date(a.created).getTime()] *)
Definition compareCreated (a b : PhylumThreatPackage) : option Z :=
  match Date_parse (created b), Date_parse (created a) with
  | Some tb, Some ta => Some (tb - ta)
  | _, _ => None
  end.

(** [new Date(pkg.created).toISOString().split('T')[0]] *)
Definition dateAdded (pkg : PhylumThreatPackage) : Outcome string :=
  match Date_parse (created pkg) with
  | Some t => Returned (before_T (toISOString t))
  | None => Thrown (RangeError "Invalid time value")
  end.

Record Widths := {
  maxDateLength : nat;
  maxEcosystemLength : nat;
  maxPackageNameLength : nat;
  maxVersionLength : nat
}.

Definition initial_widths : Widths :=
  {| maxDateLength := 10;        (* "Date Added" length *)
     maxEcosystemLength := 9;    (* "Ecosystem" length *)
     maxPackageNameLength := 12; (* "Package Name" length *)
     maxVersionLength := 15      (* "Package Version" length *) |}.

(** The callback of the first [sortedPackages.forEach]. *)
Definition measure (w : Widths) (pkg : PhylumThreatPackage) : Outcome Widths :=
  bind (dateAdded pkg) (fun dateAdded =>
  let ecosystem := orUnknown (ecosystem pkg) in
  let packageName := orUnknown (name pkg) in
  let packageVersion := orUnknown (version pkg) in
  Returned
    {| maxDateLength := Nat.max (maxDateLength w) (String.length dateAdded);
       maxEcosystemLength := Nat.max (maxEcosystemLength w) (String.length ecosystem);
       maxPackageNameLength := Nat.max (maxPackageNameLength w) (String.length packageName);
       maxVersionLength := Nat.max (maxVersionLength w) (String.length packageVersion) |}).

Definition row_of (w : Widths) (c1 c2 c3 c4 : string) : string :=
  "| " +:+ padEnd c1 (maxDateLength w)
  +:+ " | " +:+ padEnd c2 (maxEcosystemLength w)
  +:+ " | " +:+ padEnd c3 (maxPackageNameLength w)
  +:+ " | " +:+ padEnd c4 (maxVersionLength w) +:+ " |" +:+ LF.

Definition header (w : Widths) : string :=
  row_of w "Date Added" "Ecosystem" "Package Name" "Package Version".

Definition separator (w : Widths) : string :=
  "|" +:+ repeat_string "-" (maxDateLength w + 2)
  +:+ "|" +:+ repeat_string "-" (maxEcosystemLength w + 2)
  +:+ "|" +:+ repeat_string "-" (maxPackageNameLength w + 2)
  +:+ "|" +:+ repeat_string "-" (maxVersionLength w + 2) +:+ "|" +:+ LF.

(** The callback of the second [sortedPackages.forEach]. *)
Definition add_row (w : Widths) (table : string) (pkg : PhylumThreatPackage)
  : Outcome string :=
  bind (dateAdded pkg) (fun dateAdded =>
  let ecosystem := orUnknown (ecosystem pkg) in
  let packageName := orUnknown (name pkg) in
  let packageVersion := orUnknown (version pkg) in
  let row := row_of w dateAdded ecosystem packageName packageVersion in
  Returned (table +:+ row)).

(** The [else] branch from the column widths on, given the elements
    that [sortedPackages] holds after the sort. *)
Definition render_sorted (table : string) (sortedPackages : list PhylumThreatPackage)
  : Outcome string :=
  bind (forEach measure sortedPackages initial_widths) (fun w =>
  let table := table +:+ header w +:+ separator w in
  bind (forEach (add_row w) sortedPackages table) (fun table =>
  Returned (table +:+ table_note))).

Definition generateMaliciousPackagesTable (now : Z)
    (store : gmap ref (list PhylumThreatPackage)) (threatPackages : ref)
  : Outcome string * gmap ref (list PhylumThreatPackage) :=
  let table := table_heading now (List.length (array_at store threatPackages)) in
  if Nat.eqb (List.length (array_at store threatPackages)) 0
  then (Returned (table +:+ "No packages found in threat feed." +:+ LF), store)
  else
    let '(sortedPackages, store) := spread store threatPackages in
    let store := sort_in_place compareCreated store sortedPackages in
    (render_sorted table (array_at store sortedPackages), store).

(** *** What the table is said to be *)

(** The text in the date column for [pkg]. *)
Definition date_text (pkg : PhylumThreatPackage) : string :=
  match Date_parse (created pkg) with
  | Some t => before_T (toISOString t)
  | None => ""
  end.

(** The four values of the row of [pkg], before padding. *)
Definition row_values (pkg : PhylumThreatPackage) : list string :=
  [date_text pkg; orUnknown (ecosystem pkg); orUnknown (name pkg); orUnknown (version pkg)].

Definition column_headers : list string :=
  ["Date Added"; "Ecosystem"; "Package Name"; "Package Version"].

(** Column [i] of the table: its header and the values under it. *)
Definition column_header (i : nat) : string := nth i column_headers "".
Definition column_values (i : nat) (rows : list PhylumThreatPackage) : list string :=
  List.map (fun pkg => nth i (row_values pkg) "") rows.

(** The larger of the header's length and every value's length. *)
Definition column_width (i : nat) (rows : list PhylumThreatPackage) : nat :=
  Nat.max (String.length (column_header i))
          (list_max (List.map String.length (column_values i rows))).

(** [cell] is [value] followed by spaces only, and is [width] long. *)
Definition padded_to (width : nat) (value cell : string) : Prop :=
  (∃ k, cell = value +:+ repeat_string " " k) ∧ String.length cell = width.

(** [line] is a row of the table: four cells between pipes, cell [i]
    holding the [i]-th of [values] padded to the [i]-th of [widths]. *)
Definition table_row (widths : list nat) (values : list string) (line : string) : Prop :=
  ∃ c1 c2 c3 c4,
    line = "| " +:+ c1 +:+ " | " +:+ c2 +:+ " | " +:+ c3 +:+ " | " +:+ c4 +:+ " |" +:+ LF
    ∧ Forall2 (fun wv cell => padded_to (fst wv) (snd wv) cell)
              (combine widths values) [c1; c2; c3; c4].

(** The column widths the table of [rows] is said to have. *)
Definition widths_for (rows : list PhylumThreatPackage) : Widths :=
  {| maxDateLength := column_width 0 rows;
     maxEcosystemLength := column_width 1 rows;
     maxPackageNameLength := column_width 2 rows;
     maxVersionLength := column_width 3 rows |}.

Definition widths_list (w : Widths) : list nat :=
  [maxDateLength w; maxEcosystemLength w; maxPackageNameLength w; maxVersionLength w].

(** The lines of a text, one after the other. *)
Definition concat_lines (lines : list string) : string :=
  fold_right String.append "" lines.

(** The line of [pkg] in a table of the given widths. *)
Definition row_line (w : Widths) (pkg : PhylumThreatPackage) : string :=
  row_of w (date_text pkg) (orUnknown (ecosystem pkg)) (orUnknown (name pkg))
         (orUnknown (version pkg)).

Definition newest_first (a b : PhylumThreatPackage) : Prop :=
  ∃ ta tb, Date_parse (created a) = Some ta ∧ Date_parse (created b) = Some tb
           ∧ (tb <= ta)%Z.

Definition all_parsable (pkgs : list PhylumThreatPackage) : Prop :=
  Forall (fun pkg => is_Some (Date_parse (created pkg))) pkgs.

End Renderer.

(** The characters of an ISO timestamp. *)
Definition timestamp_char (c : ascii) : bool :=
  existsb (Ascii.eqb c) (list_ascii_of_string "0123456789-+T:.Z").
Definition timestamp_text (s : string) : bool :=
  forallb timestamp_char (list_ascii_of_string s).

End Report.

(** ** A reference clock

    One platform the renderer can run on, used for the examples: dates
    are read from date-only ISO text ([YYYY-MM-DD], taken as UTC
    midnight); any other text is an invalid date here. Time values are
    milliseconds since 1970-01-01T00:00:00Z in the proleptic Gregorian
    calendar. *)

Module ReferenceDate.

Definition msPerDay : Z := 86400000.

Definition days_from_civil (y m d : Z) : Z :=
  let y := if (m <=? 2)%Z then y - 1 else y in
  let era := y / 400 in
  let yoe := y - era * 400 in
  let doy := (153 * (if (2 <? m)%Z then m - 3 else m + 9) + 2) / 5 + d - 1 in
  let doe := yoe * 365 + yoe / 4 - yoe / 100 + doy in
  era * 146097 + doe - 719468.

Definition civil_from_days (z : Z) : Z * Z * Z :=
  let z := z + 719468 in
  let era := z / 146097 in
  let doe := z - era * 146097 in
  let yoe := (doe - doe / 1460 + doe / 36524 - doe / 146096) / 365 in
  let doy := doe - (365 * yoe + yoe / 4 - yoe / 100) in
  let mp := (5 * doy + 2) / 153 in
  let d := doy - (153 * mp + 2) / 5 + 1 in
  let m := if (mp <? 10)%Z then mp + 3 else mp - 9 in
  ((if (m <=? 2)%Z then yoe + era * 400 + 1 else yoe + era * 400), m, d).

Definition digit_of (c : ascii) : option Z :=
  let n := Z.of_nat (nat_of_ascii c) in
  if ((48 <=? n) && (n <=? 57))%Z then Some (n - 48) else None.

Fixpoint number_of (digits : list ascii) (acc : Z) : option Z :=
  match digits with
  | [] => Some acc
  | c :: rest =>
      match digit_of c with
      | Some v => number_of rest (acc * 10 + v)
      | None => None
      end
  end.

Definition Date_parse (s : string) : option Z :=
  match list_ascii_of_string s with
  | [y1; y2; y3; y4; dash1; m1; m2; dash2; d1; d2] =>
      if Ascii.eqb dash1 "-" && Ascii.eqb dash2 "-" then
        match number_of [y1; y2; y3; y4] 0, number_of [m1; m2] 0, number_of [d1; d2] 0 with
        | Some y, Some m, Some d =>
            let days := days_from_civil y m d in
            if bool_decide (civil_from_days days = (y, m, d))
            then Some (days * msPerDay) else None
        | _, _, _ => None
        end
      else None
  | _ => None
  end.

(** [n] in decimal on [width] digits, zeros on the left. *)
Fixpoint zero_padded (width : nat) (n : Z) : string :=
  match width with
  | O => ""
  | S width' =>
      zero_padded width' (n / 10)
      +:+ String (ascii_of_nat (48 + Z.to_nat (n mod 10))) EmptyString
  end.

Definition toISOString (t : Z) : string :=
  let days := t / msPerDay in
  let ms := t mod msPerDay in
  let '(y, m, d) := civil_from_days days in
  let year := if ((0 <=? y) && (y <=? 9999))%Z then zero_padded 4 y
              else (if (y <? 0)%Z then "-" else "+") +:+ zero_padded 6 (Z.abs y) in
  year +:+ "-" +:+ zero_padded 2 m +:+ "-" +:+ zero_padded 2 d
  +:+ "T" +:+ zero_padded 2 (ms / 3600000)
  +:+ ":" +:+ zero_padded 2 (ms / 60000 mod 60)
  +:+ ":" +:+ zero_padded 2 (ms / 1000 mod 60)
  +:+ "." +:+ zero_padded 3 (ms mod 1000) +:+ "Z".

End ReferenceDate.

(** ** fetchAllLibraries *)

Module Flattener.
Import Http Inventory.

(** The requests sent to Veracode, over all three endpoints. *)
Inductive VeracodeRequest :=
| GetWorkspaces (page : option nat)
| GetProjects (workspaceId : string) (page : nat)
| GetLibraries (workspaceId projectId : string) (page : nat).

(** [for (const library of libraries) allLibraries.push({ library, project, workspace })] *)
Definition push_libraries (workspace : VeracodeWorkspace) (project : VeracodeProject)
    (libraries : list VeracodeLibrary) (allLibraries : list InventoryTriple)
  : list InventoryTriple :=
  fold_left (fun allLibraries library =>
               allLibraries ++ [{| library := library; project := project;
                                   workspace := workspace |}])
            libraries allLibraries.

Section Loops.
Variable veracode : VeracodeApi.
Variable fuel : nat.

(** [for (const project of projects)]: the libraries of each project in
    turn; [log] is the list of requests made so far. *)
Fixpoint projects_loop (workspace : VeracodeWorkspace) (projects : list VeracodeProject)
    (allLibraries : list InventoryTriple) (log : list VeracodeRequest)
  : Outcome (list InventoryTriple) * list VeracodeRequest :=
  match projects with
  | [] => (Returned allLibraries, log)
  | project :: rest =>
      let '(libraries, pages) :=
        fetchLibrariesForProject veracode fuel (ws_id workspace) (pr_id project) in
      let log := log ++ List.map (GetLibraries (ws_id workspace) (pr_id project)) pages in
      match libraries with
      | Returned libraries =>
          projects_loop workspace rest
            (push_libraries workspace project libraries allLibraries) log
      | Thrown error => (Thrown error, log)
      | OutOfFuel => (OutOfFuel, log)
      end
  end.

(** [for (const workspace of workspaces)] *)
Fixpoint workspaces_loop (workspaces : list VeracodeWorkspace)
    (allLibraries : list InventoryTriple) (log : list VeracodeRequest)
  : Outcome (list InventoryTriple) * list VeracodeRequest :=
  match workspaces with
  | [] => (Returned allLibraries, log)
  | workspace :: rest =>
      let '(projects, pages) :=
        fetchProjectsForWorkspace veracode fuel (ws_id workspace) in
      let log := log ++ List.map (GetProjects (ws_id workspace)) pages in
      match projects with
      | Returned projects =>
          match projects_loop workspace projects allLibraries log with
          | (Returned allLibraries, log) => workspaces_loop rest allLibraries log
          | stopped => stopped
          end
      | Thrown error => (Thrown error, log)
      | OutOfFuel => (OutOfFuel, log)
      end
  end.

Definition fetchAllLibraries : Outcome (list InventoryTriple) * list VeracodeRequest :=
  let '(workspaces, pages) := fetchAllWorkspaces veracode in
  let log := List.map GetWorkspaces pages in
  match workspaces with
  | Returned workspaces => workspaces_loop workspaces [] log
  | Thrown error => (Thrown error, log)
  | OutOfFuel => (OutOfFuel, log)
  end.

(** What a fetcher returned, the empty list if it did not return. *)
Definition returned {A} (result : Outcome (list A) * list nat) : list A :=
  match fst result with
  | Returned items => items
  | _ => []
  end.

(** The inventory as a nest of lists: the triples of every library of
    every project of every workspace, in the order they were fetched. *)
Definition triples_of (workspace : VeracodeWorkspace) (project : VeracodeProject)
  : list InventoryTriple :=
  List.map (fun library => {| library := library; project := project;
                              workspace := workspace |})
    (returned (fetchLibrariesForProject veracode fuel (ws_id workspace) (pr_id project))).

Definition projects_in (workspace : VeracodeWorkspace) : list VeracodeProject :=
  returned (fetchProjectsForWorkspace veracode fuel (ws_id workspace)).

Definition inventory_of (workspaces : list VeracodeWorkspace) : list InventoryTriple :=
  flat_map (fun workspace => flat_map (triples_of workspace) (projects_in workspace))
           workspaces.

(** No page loop under [workspaces] is cut short by the fuel. *)
Definition enough_fuel (workspaces : list VeracodeWorkspace) : Prop :=
  ∀ workspace, In workspace workspaces →
    fst (fetchProjectsForWorkspace veracode fuel (ws_id workspace)) ≠ OutOfFuel
    ∧ ∀ project, In project (projects_in workspace) →
        fst (fetchLibrariesForProject veracode fuel (ws_id workspace) (pr_id project))
        ≠ OutOfFuel.

End Loops.
End Flattener.

(** ** run *)

Module Orchestrator.
Import Http Js Flattener.

(** What the [catch] of [run] can catch: an error of the stages, or the
    error of a [fs.writeFileSync] that did not go through. *)
Inductive Failure :=
| Rejected (error : JsError)
| WriteFailed (message : string).

(** [`${error}`]: the name of the error and its message. *)
Definition error_text (failure : Failure) : string :=
  match failure with
  | Rejected (AxiosError message) => "AxiosError: " +:+ message
  | Rejected (RangeError message) => "RangeError: " +:+ message
  | Rejected (TypeError message) => "TypeError: " +:+ message
  | WriteFailed message => "Error: " +:+ message
  end.

(** What a run leaves behind: the files written, the outputs set, the
    messages given to [core.setFailed], the code given to [process.exit]
    and the requests sent to the two services. *)
Record RunEffects := {
  files : list (string * string);
  outputs : list (string * string);
  failed : list string;
  exitCode : Z;
  phylum_log : list PhylumRequest;
  veracode_log : list VeracodeRequest
}.

(** The [catch] block of [run]. *)
Definition aborted (failure : Failure) (written : list (string * string))
    (phylum_log : list PhylumRequest) (veracode_log : list VeracodeRequest) : RunEffects :=
  {| files := written; outputs := [];
     failed := ["Action failed: " +:+ error_text failure];
     exitCode := 1; phylum_log := phylum_log; veracode_log := veracode_log |}.

Section Run.
Variable Date_parse : string -> option Z.
Variable toISOString : Z -> string.
Variable phylum : PhylumApi.
Variable veracode : VeracodeApi.
(** [disk path] is the message of the error [fs.writeFileSync(path, ...)]
    throws, [None] when the write goes through. *)
Variable disk : string -> option string.

(** [this.generateMaliciousPackagesTable(threatPackages)] for the array
    that [fetchAllThreatPackages] returned, the one array of the store. *)
Definition table_for (now : Z) (threatPackages : list PhylumThreatPackage)
  : Outcome string :=
  fst (Report.generateMaliciousPackagesTable Date_parse toISOString now
         ({[ 1%positive := threatPackages ]} : gmap ref (list PhylumThreatPackage))
         1%positive).

(** [run()] of the checker; [now_summary] and [now_table] are the two
    readings of the clock by the renderers; [None] when a loop runs out
    of fuel. *)
Definition run (fuel : nat) (now_summary now_table : Z) : option RunEffects :=
  let '(threats, phylum_log) := ThreatFeed.fetchAllThreatPackages phylum fuel in
  match threats with
  | OutOfFuel => None
  | Thrown error => Some (aborted (Rejected error) [] phylum_log [])
  | Returned threatPackages =>
      let '(inventory, veracode_log) := fetchAllLibraries veracode fuel in
      match inventory with
      | OutOfFuel => None
      | Thrown error => Some (aborted (Rejected error) [] phylum_log veracode_log)
      | Returned allLibraries =>
          let matches := MatchEngine.findVulnerableMatches threatPackages allLibraries in
          let summary := Report.generateSummary toISOString now_summary matches in
          match table_for now_table threatPackages with
          | OutOfFuel => None
          | Thrown error => Some (aborted (Rejected error) [] phylum_log veracode_log)
          | Returned maliciousPackagesTable =>
              match disk "summary.txt" with
              | Some message =>
                  Some (aborted (WriteFailed message) [] phylum_log veracode_log)
              | None =>
                  match disk "new-malicious-packages.txt" with
                  | Some message =>
                      Some (aborted (WriteFailed message) [("summary.txt", summary)]
                              phylum_log veracode_log)
                  | None =>
                      let files := [("summary.txt", summary);
                                    ("new-malicious-packages.txt", maliciousPackagesTable)] in
                      let outputs :=
                        [("vulnerable_packages_count", pretty (List.length matches));
                         ("summary_file", "summary.txt");
                         ("malicious_packages_file", "new-malicious-packages.txt")] in
                      if Nat.ltb 0 (List.length matches)
                      then Some {| files := files; outputs := outputs;
                                   failed := ["Found " +:+ pretty (List.length matches)
                                     +:+ " vulnerable packages that require immediate attention!"];
                                   exitCode := 1;
                                   phylum_log := phylum_log; veracode_log := veracode_log |}
                      else Some {| files := files; outputs := outputs; failed := [];
                                   exitCode := 0;
                                   phylum_log := phylum_log; veracode_log := veracode_log |}
                  end
              end
          end
      end
  end.

End Run.
End Orchestrator.

(** ** getRequiredInput, validateInputs and the entry point *)

Module Inputs.
Import Http Orchestrator.

(** Where the parameters come from: [actionInput name] is
    [core.getInput(name, { required: false })] (the empty string when the
    input is not set) and [processEnv name] is [process.env[name]]. *)
Record Environment := {
  actionInput : string -> string;
  processEnv : string -> option string
}.

Inductive Resolved :=
| Value (value : string)
| Missing (message : string).

Definition missing_message (name envVarName : string) : string :=
  "Missing required parameter '" +:+ name +:+ "'. "
  +:+ "Please provide it as a GitHub Action input or set the environment variable '"
  +:+ envVarName +:+ "'. "
  +:+ "For local testing, you can set: export " +:+ envVarName +:+ "='your-value'".

Definition getRequiredInput (e : Environment) (name envVarName : string) : Resolved :=
  let actionInput := actionInput e name in
  if negb (String.eqb actionInput "") then Value actionInput
  else
    match processEnv e envVarName with
    | Some envValue =>
        if negb (String.eqb envValue "") then Value envValue
        else Missing (missing_message name envVarName)
    | None => Missing (missing_message name envVarName)
    end.

Record Config := {
  phylumApiToken : string;
  veracodeApiId : string;
  veracodeApiKey : string;
  debug : bool
}.

(** The outcome of [validateInputs]: the configuration and the warnings
    given to [core.warning], or the message of the error thrown. *)
Inductive Validation :=
| Valid (config : Config) (warnings : list string)
| Invalid (message : string).

Definition QUOTE : string := String (ascii_of_nat 34) EmptyString.

Definition token_warning : string :=
  "Phylum API token should start with " +:+ QUOTE +:+ "ph0_" +:+ QUOTE +:+ " or "
  +:+ QUOTE +:+ "p0_" +:+ QUOTE +:+ ". Please verify your token is correct.".
Definition id_warning : string :=
  "Veracode API ID seems too short. Please verify your API ID is correct.".
Definition key_warning : string :=
  "Veracode API Key seems too short. Please verify your API key is correct.".

(** [value && condition]: the guard in front of each format check. *)
Definition nonempty (value : string) : bool := negb (String.eqb value "").

Definition validateInputs (e : Environment) : Validation :=
  match getRequiredInput e "phylum_api_token" "PHYLUM_API_TOKEN" with
  | Missing message => Invalid message
  | Value phylumApiToken =>
  match getRequiredInput e "veracode_api_id" "VERACODE_API_ID" with
  | Missing message => Invalid message
  | Value veracodeApiId =>
  match getRequiredInput e "veracode_api_key" "VERACODE_API_KEY" with
  | Missing message => Invalid message
  | Value veracodeApiKey =>
      let debugActionInput := actionInput e "debug" in
      let debugEnvVar := processEnv e "DEBUG" in
      let debug := String.eqb debugActionInput "true"
                   || bool_decide (debugEnvVar = Some "true") in
      let warnings :=
        (if nonempty phylumApiToken && negb (String.prefix "ph0_" phylumApiToken)
            && negb (String.prefix "p0_" phylumApiToken)
         then [token_warning] else [])
        ++ (if nonempty veracodeApiId && Nat.ltb (String.length veracodeApiId) 20
            then [id_warning] else [])
        ++ (if nonempty veracodeApiKey && Nat.ltb (String.length veracodeApiKey) 50
            then [key_warning] else []) in
      Valid {| phylumApiToken := phylumApiToken; veracodeApiId := veracodeApiId;
               veracodeApiKey := veracodeApiKey; debug := debug |} warnings
  end end end.

(** The function [run] at the end of the file. The two services are
    reached with the credentials of the configuration. [validateInputs]
    reports its error to [core.setFailed] before it throws it again, and
    the [catch] here reports it once more. *)
Definition main (Date_parse : string -> option Z) (toISOString : Z -> string)
    (phylum_with : string -> PhylumApi) (veracode_with : string -> string -> VeracodeApi)
    (disk : string -> option string) (e : Environment)
    (fuel : nat) (now_summary now_table : Z) : option RunEffects :=
  match validateInputs e with
  | Invalid message =>
      Some {| files := []; outputs := [];
              failed := ["Input validation failed: " +:+ message;
                         "Action failed during initialization: " +:+ message];
              exitCode := 1; phylum_log := []; veracode_log := [] |}
  | Valid config _ =>
      run Date_parse toISOString (phylum_with (phylumApiToken config))
          (veracode_with (veracodeApiId config) (veracodeApiKey config))
          disk fuel now_summary now_table
  end.

End Inputs.

(** ** Notions used to state properties *)

Module Notions.
Import Http.

(** Two feeds that send the same packages and the same cursor, or the
    same error, in answer to every request. *)
Definition same_pages (phylum1 phylum2 : PhylumApi) : Prop :=
  ∀ request,
    match phylum1 request, phylum2 request with
    | Ok response1, Ok response2 =>
        tf_packages response1 = tf_packages response2
        ∧ tf_cursor response1 = tf_cursor response2
    | Err error1, Err error2 => error1 = error2
    | _, _ => False
    end.

(** The block of a summary for the match [m] under the number
    [number]. *)
Definition block_text (number : nat) (m : VulnerableMatch) : string :=
  pretty number +:+ ". Package: " +:+ name (m_threatPackage m)
    +:+ "@" +:+ version (m_threatPackage m) +:+ Js.LF
  +:+ "   Ecosystem: " +:+ ecosystem (m_threatPackage m) +:+ Js.LF
  +:+ "   Threat Indicators: "
    +:+ String.concat ", " (List.map fst (indicators (m_threatPackage m))) +:+ Js.LF
  +:+ "   Workspace: " +:+ ws_name (m_workspace m)
    +:+ " (" +:+ ws_id (m_workspace m) +:+ ")" +:+ Js.LF
  +:+ "   Project: " +:+ pr_name (m_project m)
    +:+ " (" +:+ pr_id (m_project m) +:+ ")" +:+ Js.LF
  +:+ "   Library ID: " +:+ lib_id (m_library m) +:+ Js.LF
  +:+ "   Library License: " +:+ lib_license (m_library m) +:+ Js.LF
  +:+ "   Threat Created: " +:+ created (m_threatPackage m) +:+ Js.LF
  +:+ "   Library Vulnerabilities: "
    +:+ pretty (List.length (lib_vulnerabilities (m_library m))) +:+ Js.LF
  +:+ Js.LF.

(** The blocks of a summary: the match at position [i] of the list
    under the number [index + i + 1]. *)
Fixpoint numbered_blocks (index : nat) (matches : list VulnerableMatch) : list string :=
  match matches with
  | [] => []
  | m :: rest => block_text (index + 1) m :: numbered_blocks (S index) rest
  end.

(** The parameters [validateInputs] asks for: the name of the action
    input and of the environment variable of each, in the order asked. *)
Definition required_parameters : list (string * string) :=
  [("phylum_api_token", "PHYLUM_API_TOKEN");
   ("veracode_api_id", "VERACODE_API_ID");
   ("veracode_api_key", "VERACODE_API_KEY")].

(** [value] is what the parameter is set to: not empty, and the action
    input, or the environment variable when the action input is empty. *)
Definition resolves (e : Inputs.Environment) (name envVarName value : string) : Prop :=
  value ≠ ""
  ∧ (Inputs.actionInput e name = value
     ∨ (Inputs.actionInput e name = "" ∧ Inputs.processEnv e envVarName = Some value)).

(** The parameter is set nowhere, or only to the empty string. *)
Definition absent (e : Inputs.Environment) (name envVarName : string) : Prop :=
  Inputs.actionInput e name = ""
  ∧ (Inputs.processEnv e envVarName = None ∨ Inputs.processEnv e envVarName = Some "").

(** The length of a line of a table of the given widths: the four
    cells, the pipes and spaces around them, and the line feed. *)
Definition line_length (w : Report.Widths) : nat :=
  Report.maxDateLength w + Report.maxEcosystemLength w
  + Report.maxPackageNameLength w + Report.maxVersionLength w + 14.

End Notions.

(** ** Fixtures *)

Module Fixtures.
Import Http.

Definition threat (created ecosystem name version : string) : PhylumThreatPackage :=
  {| created := created; ecosystem := ecosystem; hashes := None;
     indicators := [("typosquat", "true")]; name := name; version := version |}.

Definition a1 := threat "2024-01-01" "npm" "a" "1.0".
Definition a2 := threat "2023-06-15" "npm" "a" "2.0".
Definition b1 := threat "2024-06-01" "" "Left-Pad" "1.0".
Definition broken := threat "not-a-date" "pypi" "x" "0.1".

Definition w1 : VeracodeWorkspace :=
  {| ws_id := "ws-1"; ws_name := "One"; ws_created := ""; ws_lastUpdated := "" |}.
Definition w2 : VeracodeWorkspace :=
  {| ws_id := "ws-2"; ws_name := "Two"; ws_created := ""; ws_lastUpdated := "" |}.

Definition proj (id : string) : VeracodeProject :=
  {| pr_id := id; pr_name := id; pr_workspaceId := "ws-1";
     pr_created := ""; pr_lastUpdated := "" |}.

Definition lib (id name version : string) : VeracodeLibrary :=
  {| lib_id := id; lib_name := name; lib_version := version; lib_ecosystem := "npm";
     lib_license := "MIT"; lib_vulnerabilities := [] |}.

Definition triple (l : VeracodeLibrary) (p : VeracodeProject) : InventoryTriple :=
  {| library := l; project := p; workspace := w1 |}.

(** Three pages of projects and of libraries, two pages of workspaces. *)
Definition project_pages : list (list VeracodeProject) :=
  [[proj "p0"; proj "p1"]; [proj "p2"]; [proj "p3"]].
Definition library_pages : list (list VeracodeLibrary) :=
  [[lib "l0" "a" "1.0"]; [lib "l1" "b" "1.0"; lib "l2" "c" "3"]; []].
Definition workspace_pages : list (list VeracodeWorkspace) := [[w1]; [w2]].

Definition veracode : VeracodeApi :=
  {| getWorkspaces := Inventory.paged_workspaces workspace_pages;
     getProjects := fun _ => Inventory.paged_projects project_pages;
     getLibraries := fun _ _ => Inventory.paged_libraries library_pages |}.

Definition timeout : JsError := AxiosError "timeout of 30000ms exceeded".

(** The same service with page [k] of every project and library list
    timing out. *)
Definition veracode_failing_at (k : nat) : VeracodeApi :=
  {| getWorkspaces := Inventory.paged_workspaces workspace_pages;
     getProjects := fun _ =>
       Inventory.failing_at k timeout (Inventory.paged_projects project_pages);
     getLibraries := fun _ _ =>
       Inventory.failing_at k timeout (Inventory.paged_libraries library_pages) |}.

(** A service that sends no [page] object at all. *)
Definition veracode_unpaged : VeracodeApi :=
  {| getWorkspaces := Inventory.paged_workspaces workspace_pages;
     getProjects := fun _ _ =>
       Ok {| pr_embedded := Some {| e_projects := Some [proj "p0"] |}; pr_page := None |};
     getLibraries := fun _ _ _ =>
       Ok {| lr_embedded := None; lr_page := None |} |}.

(** A service whose pages all report [number = 0] of [totalPages = 2]. *)
Definition veracode_stuck : VeracodeApi :=
  {| getWorkspaces := Inventory.paged_workspaces workspace_pages;
     getProjects := fun _ _ =>
       Ok {| pr_embedded := Some {| e_projects := Some [proj "p0"] |};
             pr_page := Some {| pi_size := Some 100; pi_totalElements := Some 2;
                                pi_totalPages := Some 2; pi_number := Some 0 |} |};
     getLibraries := fun _ _ _ =>
       Ok {| lr_embedded := None; lr_page := None |} |}.

Definition feed : PhylumApi := ThreatFeed.scripted_feed [[a1]; [a2; b1]; [broken]] (JsNumber 0).

Definition feed_pages : list PhylumThreatFeedResponse :=
  [ {| tf_has_next := true; tf_has_previous := false;
       tf_packages := [a1]; tf_cursor := JsNumber 1 |};
    {| tf_has_next := true; tf_has_previous := true;
       tf_packages := [a2; b1]; tf_cursor := JsNumber 2 |};
    {| tf_has_next := false; tf_has_previous := true;
       tf_packages := [broken]; tf_cursor := JsNumber 0 |} ].

(** A feed whose second request times out. *)
Definition feed_failing : PhylumApi :=
  fun request =>
    match request with
    | FirstPage => feed FirstPage
    | AfterCursor _ => Err timeout
    end.

Definition store : gmap Js.ref (list PhylumThreatPackage) :=
  {[ 1%positive := [a1; a2; b1]; 2%positive := [a1; broken] ]}.

End Fixtures.

(** ** More fixtures *)

Module MoreFixtures.
Import Http.

(** A feed that hands out a next cursor on every page. *)
Definition feed_forever : PhylumApi :=
  fun _ => Ok {| tf_has_next := true; tf_has_previous := true;
                 tf_packages := [Fixtures.a1]; tf_cursor := JsNumber 1 |}.

(** The feed of [Fixtures.feed] with the two flags of every page turned
    off. *)
Definition feed_unflagged : PhylumApi :=
  fun request =>
    match Fixtures.feed request with
    | Ok response =>
        Ok {| tf_has_next := false; tf_has_previous := false;
              tf_packages := tf_packages response; tf_cursor := tf_cursor response |}
    | Err error => Err error
    end.

(** Feeds with nothing, and with one thing, that the inventory of
    [Fixtures.veracode] holds. *)
Definition feed_clean : PhylumApi :=
  ThreatFeed.scripted_feed [[Fixtures.a2]; [Fixtures.b1]] JsUndefined.
Definition feed_hit : PhylumApi :=
  ThreatFeed.scripted_feed [[Fixtures.a1]] JsUndefined.




(** A service whose one library nothing in the feeds matches. *)
Definition veracode_unmatched : VeracodeApi :=
  {| getWorkspaces := Inventory.paged_workspaces Fixtures.workspace_pages;
     getProjects := fun _ => Inventory.paged_projects [[Fixtures.proj "p0"]];
     getLibraries := fun _ _ =>
       Inventory.paged_libraries [[Fixtures.lib "l9" "zlib" "9.9"]] |}.

Definition disk_ok : string -> option string := fun _ => None.

(** A disk on which the table cannot be written. *)
Definition disk_half : string -> option string :=
  fun path => if String.eqb path "summary.txt" then None
              else Some "ENOSPC: no space left on device, write".

(** One library in two projects, matched by the second of two threats. *)
Definition t0 := Fixtures.triple (Fixtures.lib "l0" "a" "1.0") (Fixtures.proj "p0").
Definition t1 := Fixtures.triple (Fixtures.lib "l1" "a" "1.0") (Fixtures.proj "p1").
Definition left_pad :=
  Fixtures.triple (Fixtures.lib "l5" "Left-Pad" "1.0") (Fixtures.proj "p2").
Definition two_matches : list VulnerableMatch :=
  MatchEngine.findVulnerableMatches [Fixtures.a2; Fixtures.a1] [t0; t1].

(** All three credentials as action inputs, the debug flag from the
    environment. *)
Definition env_inputs : Inputs.Environment :=
  {| Inputs.actionInput := fun name =>
       if String.eqb name "phylum_api_token" then "ph0_0123456789abcdef"
       else if String.eqb name "veracode_api_id" then "0123456789abcdef0123456789abcdef"
       else if String.eqb name "veracode_api_key" then "short-key"
       else "";
     Inputs.processEnv := fun name =>
       if String.eqb name "DEBUG" then Some "true"
       else if String.eqb name "PHYLUM_API_TOKEN" then Some "p0_from_env"
       else None |}.

(** No action input; the Veracode key is set to the empty string. *)
Definition env_missing_key : Inputs.Environment :=
  {| Inputs.actionInput := fun _ => "";
     Inputs.processEnv := fun name =>
       if String.eqb name "PHYLUM_API_TOKEN" then Some "token"
       else if String.eqb name "VERACODE_API_ID" then Some "id"
       else if String.eqb name "VERACODE_API_KEY" then Some ""
       else None |}.

End MoreFixtures.

(** ** Facts about findVulnerableMatches *)

Module MatchEngineFacts.
Import MatchEngine.

Lemma is_match_qualifies threatPackage t :
  is_match threatPackage (library t) = qualifies (threatPackage, t).
Proof.
  unfold is_match, qualifies; simpl.
  destruct (String.eqb_spec (name threatPackage) (lib_name (library t))) as [Hn | Hn];
    destruct (String.eqb_spec (version threatPackage) (lib_version (library t))) as [Hv | Hv];
    simpl; symmetry.
  - apply bool_decide_eq_true; auto.
  - apply bool_decide_eq_false; intros [_ ?]; contradiction.
  - apply bool_decide_eq_false; intros [? _]; contradiction.
  - apply bool_decide_eq_false; intros [? _]; contradiction.
Qed.

Lemma inner_loop_spec threatPackage allLibraries matches :
  inner_loop threatPackage allLibraries matches
  = matches ++ List.map (fun p => mkMatch (fst p) (snd p))
                 (List.filter qualifies (List.map (pair threatPackage) allLibraries)).
Proof.
  unfold inner_loop. revert matches.
  induction allLibraries as [| t rest IH]; intros matches; simpl.
  - by rewrite app_nil_r.
  - rewrite IH, is_match_qualifies.
    destruct (qualifies (threatPackage, t)); simpl; [| done].
    by rewrite <- app_assoc.
Qed.

Lemma outer_loop_spec threatPackages allLibraries matches :
  fold_left (fun matches threatPackage => inner_loop threatPackage allLibraries matches)
            threatPackages matches
  = matches ++ matches_spec threatPackages allLibraries.
Proof.
  unfold matches_spec. revert matches.
  induction threatPackages as [| threatPackage rest IH]; intros matches; simpl.
  - by rewrite app_nil_r.
  - rewrite IH, inner_loop_spec, List.filter_app, List.map_app.
    by rewrite <- app_assoc.
Qed.

(** C2. For all threat entries and inventory triples, the matches are
    the pairs of the cross product (threats outermost, inventory
    innermost) whose names and versions are equal strings: one match for
    each such pair, repeated entries included, in that order, and each match
    holds the threat of its pair and the library, project and workspace of
    its triple. *)
Theorem findVulnerableMatches_exact threatPackages allLibraries :
  findVulnerableMatches threatPackages allLibraries
  = List.map (fun p : PhylumThreatPackage * InventoryTriple =>
                {| m_threatPackage := fst p;
                   m_library := library (snd p);
                   m_project := project (snd p);
                   m_workspace := workspace (snd p) |})
      (List.filter
         (fun p : PhylumThreatPackage * InventoryTriple =>
            bool_decide (name (fst p) = lib_name (library (snd p))
                         ∧ version (fst p) = lib_version (library (snd p))))
         (list_prod threatPackages allLibraries)).
Proof.
  unfold findVulnerableMatches. rewrite outer_loop_spec. reflexivity.
Qed.

Lemma findVulnerableMatches_exact_witness :
  findVulnerableMatches [Fixtures.a2; Fixtures.a1; Fixtures.b1]
    [MoreFixtures.t0; MoreFixtures.left_pad; MoreFixtures.t1]
  = [ {| m_threatPackage := Fixtures.a1; m_library := Fixtures.lib "l0" "a" "1.0";
         m_project := Fixtures.proj "p0"; m_workspace := Fixtures.w1 |};
      {| m_threatPackage := Fixtures.a1; m_library := Fixtures.lib "l1" "a" "1.0";
         m_project := Fixtures.proj "p1"; m_workspace := Fixtures.w1 |};
      {| m_threatPackage := Fixtures.b1; m_library := Fixtures.lib "l5" "Left-Pad" "1.0";
         m_project := Fixtures.proj "p2"; m_workspace := Fixtures.w1 |} ].
Proof.
  exact (findVulnerableMatches_exact [Fixtures.a2; Fixtures.a1; Fixtures.b1]
           [MoreFixtures.t0; MoreFixtures.left_pad; MoreFixtures.t1]).
Defined.

(** Two threats, one library used by two projects: two matches. *)
Example match_exactness :
  let inventory := [Fixtures.triple (Fixtures.lib "l0" "a" "1.0") (Fixtures.proj "p0");
                    Fixtures.triple (Fixtures.lib "l0" "a" "1.0") (Fixtures.proj "p1")] in
  findVulnerableMatches [Fixtures.a1; Fixtures.a2] inventory
  = List.map (mkMatch Fixtures.a1) inventory.
Proof. reflexivity. Qed.

(** Neither a change of case nor a longer version string matches. *)
Example match_case_sensitive :
  findVulnerableMatches [Fixtures.b1]
    [Fixtures.triple (Fixtures.lib "l0" "left-pad" "1.0") (Fixtures.proj "p0");
     Fixtures.triple (Fixtures.lib "l1" "Left-Pad" "1.0.0") (Fixtures.proj "p0")]
  = [].
Proof. reflexivity. Qed.

End MatchEngineFacts.

(** ** Facts about fetchAllThreatPackages *)

Module ThreatFeedFacts.
Import Http ThreatFeed.

Section Facts.
Variable phylum : PhylumApi.

Lemma threat_loop_served pages : ∀ cursor allPackages requests fuel,
  served_from phylum cursor pages →
  (List.length pages <= fuel)%nat →
  threat_loop phylum fuel allPackages cursor requests
  = (Returned (allPackages ++ concat (List.map tf_packages pages)),
     requests ++ requests_along cursor (removelast pages)).
Proof.
  induction pages as [| response rest IH]; intros cursor allPackages requests fuel Hs Hf.
  - inversion Hs.
  - destruct fuel as [| fuel]; [simpl in Hf; lia |].
    simpl in Hf. inversion Hs as [c r Hget Hstop | c r rest' Hget Hgo Hrest]; subst.
    + simpl. rewrite Hget, Hstop. by rewrite app_nil_r.
    + cbn [threat_loop]. rewrite Hget, Hgo.
      rewrite (IH _ _ _ fuel Hrest) by lia.
      destruct rest as [| r' rest]; [inversion Hrest |].
      cbn [removelast List.map concat requests_along].
      rewrite <- !app_assoc. reflexivity.
Qed.

Lemma threat_loop_fails pages : ∀ cursor allPackages requests fuel error,
  fails_from phylum cursor pages error →
  (List.length pages < fuel)%nat →
  threat_loop phylum fuel allPackages cursor requests
  = (Thrown error, requests ++ requests_along cursor pages).
Proof.
  induction pages as [| response rest IH];
    intros cursor allPackages requests fuel error Hs Hf;
    (destruct fuel as [| fuel]; [simpl in Hf; lia |]); simpl in Hf.
  - inversion Hs as [c e Hget |]; subst. simpl. by rewrite Hget.
  - inversion Hs as [| c r rest' e Hget Hgo Hrest]; subst.
    cbn [threat_loop]. rewrite Hget, Hgo.
    rewrite (IH _ _ _ fuel _ Hrest) by lia.
    cbn [requests_along List.map]. rewrite <- !app_assoc. reflexivity.
Qed.

End Facts.

(** C4. When the feed serves [pages] along its cursors (each page but
    the last with a truthy cursor), the fetch returns the items of all
    pages in page order after one request per page; and a page whose
    cursor is absent, null, 0 or the empty string ends the loop in the same
    way, with the items gathered so far and this page's. *)
Theorem fetchAllThreatPackages_drains phylum pages fuel :
  served_from phylum JsUndefined pages →
  (List.length pages <= fuel)%nat →
  fetchAllThreatPackages phylum fuel
  = (Returned (concat (List.map tf_packages pages)),
     requests_along JsUndefined (removelast pages))
  ∧ List.length (requests_along JsUndefined (removelast pages)) = List.length pages
  ∧ ∀ last cursor allPackages requests fuel',
      In (tf_cursor last) [JsUndefined; JsNull; JsNumber 0; JsString ""] →
      phylum (url_of cursor) = Ok last →
      threat_loop phylum (S fuel') allPackages cursor requests
      = (Returned (allPackages ++ tf_packages last), requests ++ [url_of cursor]).
Proof.
  intros Hs Hf. split; [| split].
  - unfold fetchAllThreatPackages. by rewrite (threat_loop_served _ _ _ _ _ _ Hs Hf).
  - unfold requests_along. cbn [List.length]. rewrite length_map.
    destruct pages as [| r rest]; [inversion Hs |].
    clear. revert r. induction rest as [| r' rest IH]; intros r; [done |].
    change (removelast (r :: r' :: rest)) with (r :: removelast (r' :: rest)).
    cbn [List.length]. by rewrite IH.
  - intros last cursor allPackages requests fuel' Hin Hget.
    assert (truthy (tf_cursor last) = false) as Hstop.
    { simpl in Hin. destruct Hin as [<- | [<- | [<- | [<- | []]]]]; reflexivity. }
    simpl. by rewrite Hget, Hstop.
Qed.

Lemma fetchAllThreatPackages_drains_witness :
  served_from Fixtures.feed JsUndefined Fixtures.feed_pages
  ∧ fetchAllThreatPackages Fixtures.feed 3
    = (Returned [Fixtures.a1; Fixtures.a2; Fixtures.b1; Fixtures.broken],
       [FirstPage; AfterCursor (JsNumber 1); AfterCursor (JsNumber 2)]).
Proof.
  assert (served_from Fixtures.feed JsUndefined Fixtures.feed_pages) as Hs.
  { apply served_more; [reflexivity | reflexivity |].
    apply served_more; [reflexivity | reflexivity |].
    apply served_last; reflexivity. }
  split; [exact Hs |].
  apply (fetchAllThreatPackages_drains Fixtures.feed Fixtures.feed_pages 3 Hs).
  simpl; lia.
Defined.

(** C5. When a request of the threat feed fails, after any number of
    pages that were served, the fetch throws that error: nothing is
    returned, whatever the earlier pages held. *)
Theorem fetchAllThreatPackages_all_or_nothing phylum pages error fuel :
  fails_from phylum JsUndefined pages error →
  (List.length pages < fuel)%nat →
  fetchAllThreatPackages phylum fuel
  = (Thrown error, requests_along JsUndefined pages)
  ∧ ∀ partial, fst (fetchAllThreatPackages phylum fuel) ≠ Returned partial.
Proof.
  intros Hs Hf. unfold fetchAllThreatPackages.
  rewrite (threat_loop_fails _ _ _ _ _ _ _ Hs Hf). split; [done |].
  intros partial; simpl; discriminate.
Qed.

Lemma fetchAllThreatPackages_all_or_nothing_witness :
  fails_from Fixtures.feed_failing JsUndefined (take 1 Fixtures.feed_pages) Fixtures.timeout
  ∧ fetchAllThreatPackages Fixtures.feed_failing 2
    = (Thrown Fixtures.timeout, [FirstPage; AfterCursor (JsNumber 1)]).
Proof.
  assert (fails_from Fixtures.feed_failing JsUndefined (take 1 Fixtures.feed_pages)
            Fixtures.timeout) as Hs.
  { apply fails_later; [reflexivity | reflexivity |].
    apply fails_now; reflexivity. }
  split; [exact Hs |].
  apply (fetchAllThreatPackages_all_or_nothing Fixtures.feed_failing
           (take 1 Fixtures.feed_pages) Fixtures.timeout 2 Hs).
  simpl; lia.
Defined.

End ThreatFeedFacts.

(** ** Facts about the Veracode fetchers *)

Module InventoryFacts.
Import Http Inventory.

Section Loop.
Context {Item Response : Type}.
Variable fetch : nat -> Result Response.
Variable embedded_items : Response -> option (list Item).
Variable page_info : Response -> option PageInfo.

Local Abbreviation loop := (page_loop fetch embedded_items page_info).
Local Abbreviation items_of := (page_items fetch embedded_items).

Lemma push_page_items allItems page response :
  fetch page = Ok response →
  match embedded_items response with
  | Some items => allItems ++ items
  | None => allItems
  end = allItems ++ items_of page.
Proof.
  intros Hget. unfold page_items. rewrite Hget.
  destruct (embedded_items response); simpl; [done | by rewrite app_nil_r].
Qed.

(** A page after which the loop goes on. *)
Lemma loop_step_more fuel allItems page requests :
  continues fetch page_info page →
  loop (S fuel) allItems page requests
  = loop fuel (allItems ++ items_of page) (S page) (requests ++ [page]).
Proof.
  intros (response & Hget & Hlt). cbn [page_loop]. rewrite Hget.
  rewrite (push_page_items _ _ _ Hget).
  by apply Z.ltb_lt in Hlt as ->.
Qed.


(** [k] pages in a row after each of which the loop goes on. *)
Lemma loop_steps k : ∀ fuel allItems page requests,
  (∀ p, (page <= p < page + k)%nat → continues fetch page_info p) →
  loop (k + fuel) allItems page requests
  = loop fuel (allItems ++ flat_map items_of (seq page k)) (page + k)
         (requests ++ seq page k).
Proof.
  induction k as [| k IH]; intros fuel allItems page requests Hgo.
  - simpl. by rewrite !app_nil_r, Nat.add_0_r.
  - cbn [Nat.add]. rewrite loop_step_more by (apply Hgo; lia).
    rewrite IH by (intros p Hp; apply Hgo; lia).
    cbn [seq flat_map]. rewrite <- !app_assoc.
    by replace (S page + k)%nat with (page + S k)%nat by lia.
Qed.

Lemma loop_fails k error fuel :
  (k < fuel)%nat →
  (∀ p, (p < k)%nat → continues fetch page_info p) →
  fetch k = Err error →
  loop fuel [] 0%nat [] = (Returned (flat_map items_of (seq 0 k)), seq 0 (S k)).
Proof.
  intros Hfuel Hgo Hfail.
  replace fuel with (k + S (fuel - S k))%nat by lia.
  rewrite loop_steps by (intros p Hp; apply Hgo; lia).
  cbn [page_loop Nat.add app]. rewrite Hfail, seq_S.
  destruct k; reflexivity.
Qed.


End Loop.

(** C1. [fetchAllWorkspaces] sends one request, without a page
    parameter, whatever the endpoint holds: of a workspace list served in
    two pages it returns the first page only, where the claim has both. *)
Theorem fetchAllWorkspaces_first_page_only :
  fetchAllWorkspaces Fixtures.veracode = (Returned [Fixtures.w1], [None])
  ∧ concat Fixtures.workspace_pages = [Fixtures.w1; Fixtures.w2]
  ∧ ∀ veracode, snd (fetchAllWorkspaces veracode) = [None].
Proof.
  split; [reflexivity | split; [reflexivity |]].
  intros veracode. unfold fetchAllWorkspaces.
  destruct (getWorkspaces veracode None) as [response | error]; [| reflexivity].
  destruct (wr_embedded response) as [embedded |]; [| reflexivity].
  destruct (e_workspaces embedded); reflexivity.
Qed.


(** C3. When the request for page [k] of a project list or of a library
    list fails, after pages [0..k-1] were served and the loop went on after
    each, the fetcher returns the items of pages [0..k-1] and throws nothing;
    for [k = 0] that is the empty list. *)
Theorem page_fetchers_failure_policy veracode workspaceId projectId
    kp kl errorp errorl fuel :
  (kp < fuel)%nat →
  (kl < fuel)%nat →
  (∀ p, (p < kp)%nat → continues (getProjects veracode workspaceId) pr_page p) →
  getProjects veracode workspaceId kp = Err errorp →
  (∀ p, (p < kl)%nat → continues (getLibraries veracode workspaceId projectId) lr_page p) →
  getLibraries veracode workspaceId projectId kl = Err errorl →
  fetchProjectsForWorkspace veracode fuel workspaceId
  = (Returned (flat_map (page_items (getProjects veracode workspaceId) projects_of)
                        (seq 0 kp)),
     seq 0 (S kp))
  ∧ fetchLibrariesForProject veracode fuel workspaceId projectId
    = (Returned (flat_map (page_items (getLibraries veracode workspaceId projectId)
                                      libraries_of)
                          (seq 0 kl)),
       seq 0 (S kl))
  ∧ (kp = 0%nat → fst (fetchProjectsForWorkspace veracode fuel workspaceId) = Returned [])
  ∧ (kl = 0%nat →
     fst (fetchLibrariesForProject veracode fuel workspaceId projectId) = Returned []).
Proof.
  intros Hfp Hfl Hgop Hfailp Hgol Hfaill.
  unfold fetchProjectsForWorkspace, fetchLibrariesForProject.
  rewrite (loop_fails _ _ _ kp errorp fuel Hfp Hgop Hfailp).
  rewrite (loop_fails _ _ _ kl errorl fuel Hfl Hgol Hfaill).
  repeat split; intros ->; reflexivity.
Qed.

Lemma page_fetchers_failure_policy_witness :
  fetchProjectsForWorkspace (Fixtures.veracode_failing_at 1) 4 "ws-1"
  = (Returned [Fixtures.proj "p0"; Fixtures.proj "p1"], [0%nat; 1%nat])
  ∧ fetchLibrariesForProject (Fixtures.veracode_failing_at 1) 4 "ws-1" "p0"
    = (Returned [Fixtures.lib "l0" "a" "1.0"], [0%nat; 1%nat]).
Proof.
  assert (∀ p, (p < 1)%nat →
            continues (getProjects (Fixtures.veracode_failing_at 1) "ws-1") pr_page p) as Hp.
  { intros p Hlt. assert (p = 0%nat) as -> by lia. eexists; split; reflexivity. }
  assert (∀ p, (p < 1)%nat →
            continues (getLibraries (Fixtures.veracode_failing_at 1) "ws-1" "p0") lr_page p)
    as Hl.
  { intros p Hlt. assert (p = 0%nat) as -> by lia. eexists; split; reflexivity. }
  destruct (page_fetchers_failure_policy (Fixtures.veracode_failing_at 1) "ws-1" "p0"
              1 1 Fixtures.timeout Fixtures.timeout 4
              ltac:(lia) ltac:(lia) Hp eq_refl Hl eq_refl) as (H1 & H2 & _).
  split; [exact H1 | exact H2].
Defined.

(** The first page failing: nothing is returned but the empty list. *)
Example first_page_failure :
  fetchProjectsForWorkspace (Fixtures.veracode_failing_at 0) 4 "ws-1" = (Returned [], [0%nat])
  ∧ fetchLibrariesForProject (Fixtures.veracode_failing_at 0) 4 "ws-1" "p0"
    = (Returned [], [0%nat]).
Proof. split; reflexivity. Qed.




(** No [page] object in the responses: one request each. *)
Example unpaged_single_request :
  fetchProjectsForWorkspace Fixtures.veracode_unpaged 9 "ws-1"
  = (Returned [Fixtures.proj "p0"], [0%nat])
  ∧ fetchLibrariesForProject Fixtures.veracode_unpaged 9 "ws-1" "p0" = (Returned [], [0%nat]).
Proof. split; reflexivity. Qed.

(** The loop reads the page number from the response, not from its own
    counter: against a service that reports page 0 of 2 on every request
    it never stops. *)
Remark stuck_page_number fuel : ∀ allItems page requests,
  fst (page_loop (getProjects Fixtures.veracode_stuck "ws-1") projects_of pr_page
         fuel allItems page requests) = OutOfFuel.
Proof.
  induction fuel as [| fuel IH]; intros allItems page requests; [reflexivity |].
  cbn [page_loop]. apply IH.
Qed.

End InventoryFacts.

(** ** Facts about strings, the sort and the store *)

Module JsFacts.
Import Js.

Lemma append_String ch (a b : string) : String ch a +:+ b = String ch (a +:+ b).
Proof. reflexivity. Qed.

Lemma append_assoc (a b c : string) : (a +:+ b) +:+ c = a +:+ (b +:+ c).
Proof.
  induction a as [| ch a IH]; [done |]. by rewrite !append_String, IH.
Qed.

Lemma append_empty_r (a : string) : a +:+ "" = a.
Proof.
  induction a as [| ch a IH]; [done |]. by rewrite append_String, IH.
Qed.

Lemma length_append (a b : string) :
  String.length (a +:+ b) = (String.length a + String.length b)%nat.
Proof.
  induction a as [| ch a IH]; [done |]. rewrite append_String. simpl. by rewrite IH.
Qed.

Lemma chars_append (a b : string) :
  list_ascii_of_string (a +:+ b) = list_ascii_of_string a ++ list_ascii_of_string b.
Proof.
  induction a as [| ch a IH]; [done |]. rewrite append_String. simpl. by rewrite IH.
Qed.

Lemma length_repeat_space k : String.length (repeat_string " " k) = k.
Proof.
  induction k as [| k IH]; [done |].
  change (repeat_string " " (S k)) with (String " " (repeat_string " " k)).
  simpl. by rewrite IH.
Qed.

Lemma padEnd_length s width :
  (String.length s <= width)%nat → String.length (padEnd s width) = width.
Proof.
  intros Hle. unfold padEnd. rewrite length_append, length_repeat_space. lia.
Qed.

Lemma padEnd_long s width : (width <= String.length s)%nat → padEnd s width = s.
Proof.
  intros Hle. unfold padEnd.
  replace (width - String.length s)%nat with 0%nat by lia.
  apply append_empty_r.
Qed.

(** A text that includes another holds each of its characters. *)
Lemma includes_chars haystack needle c :
  includes haystack needle →
  In c (list_ascii_of_string needle) → In c (list_ascii_of_string haystack).
Proof.
  intros (before & after & ->) Hin. rewrite !chars_append, !in_app_iff. auto.
Qed.

Section SortFacts.
Context {A : Type}.
Variable compare : A -> A -> option Z.

Lemma insert_sorted_perm a sorted : Permutation (insert_sorted compare a sorted) (a :: sorted).
Proof.
  induction sorted as [| b rest IH]; simpl; [done |].
  destruct (stays_before compare a b); [done |].
  rewrite IH. apply perm_swap.
Qed.

Lemma sort_perm array : Permutation (sort compare array) array.
Proof.
  induction array as [| a rest IH]; simpl; [done |].
  rewrite insert_sorted_perm. by apply perm_skip.
Qed.

(** On a set of elements where the comparator is a total preorder read
    as [before], the sort puts every element before its successors. *)
Variable domain : A -> Prop.
Variable before : A -> A -> Prop.
Hypothesis before_trans : ∀ a b c, before a b → before b c → before a c.
Hypothesis stays_before_true : ∀ a b,
  domain a → domain b → stays_before compare a b = true → before a b.
Hypothesis stays_before_false : ∀ a b,
  domain a → domain b → stays_before compare a b = false → before b a.

Lemma insert_sorted_ordered a sorted :
  domain a → Forall domain sorted →
  StronglySorted before sorted →
  StronglySorted before (insert_sorted compare a sorted).
Proof.
  intros Ha Hdom Hsorted.
  induction Hsorted as [| b rest Hrest IH Hb]; simpl.
  - repeat constructor.
  - inversion Hdom as [| ? ? Hdb Hdrest]; subst.
    destruct (stays_before compare a b) eqn:Hcmp.
    + pose proof (stays_before_true a b Ha Hdb Hcmp) as Hab.
      constructor; [by constructor |].
      constructor; [done |].
      eapply Forall_impl; [exact Hb |]. intros c Hbc. by eapply before_trans.
    + pose proof (stays_before_false a b Ha Hdb Hcmp) as Hba.
      constructor; [by apply IH |].
      rewrite (insert_sorted_perm a rest). by constructor.
Qed.

Lemma sort_ordered array :
  Forall domain array → StronglySorted before (sort compare array).
Proof.
  induction array as [| a rest IH]; intros Hdom; simpl; [constructor |].
  inversion Hdom as [| ? ? Ha Hrest]; subst.
  apply insert_sorted_ordered; [done | | by apply IH].
  by rewrite (sort_perm rest).
Qed.

End SortFacts.

Section StoreFacts.
Context {A : Type}.
Implicit Types (store : gmap ref (list A)) (r : ref).

Lemma spread_fresh store r : store !! (fst (spread store r)) = None.
Proof.
  unfold spread; simpl. apply not_elem_of_dom. apply is_fresh.
Qed.

(** Copying and sorting the copy leaves every array that was there. *)
Lemma sort_copy_frame compare store r r' :
  is_Some (store !! r') →
  sort_in_place compare (snd (spread store r)) (fst (spread store r)) !! r' = store !! r'.
Proof.
  intros Hsome. unfold sort_in_place.
  assert (fst (spread store r) ≠ r') as Hne.
  { intros <-. rewrite spread_fresh in Hsome. by destruct Hsome. }
  rewrite lookup_insert_ne by done.
  unfold spread; simpl. by rewrite lookup_insert_ne.
Qed.

(** The copy holds the sorted elements of the array that was copied. *)
Lemma sort_copy_result compare store r :
  array_at (sort_in_place compare (snd (spread store r)) (fst (spread store r)))
           (fst (spread store r))
  = sort compare (array_at store r).
Proof.
  unfold sort_in_place, array_at at 1. rewrite lookup_insert_eq. simpl.
  f_equal. unfold spread, array_at at 1; simpl. by rewrite lookup_insert_eq.
Qed.

End StoreFacts.

End JsFacts.

(** ** Facts about the two reports *)

Module ReportFacts.
Import Js JsFacts Report.

Section Facts.
Variable Date_parse : string -> option Z.
Variable toISOString : Z -> string.

Local Abbreviation parsable := (fun pkg => is_Some (Date_parse (created pkg))).
Local Abbreviation compareCreated := (Report.compareCreated Date_parse).
Local Abbreviation dateAdded := (Report.dateAdded Date_parse toISOString).
Local Abbreviation date_text := (Report.date_text Date_parse toISOString).
Local Abbreviation measure := (Report.measure Date_parse toISOString).
Local Abbreviation add_row := (Report.add_row Date_parse toISOString).
Local Abbreviation row_line := (Report.row_line Date_parse toISOString).
Local Abbreviation row_values := (Report.row_values Date_parse toISOString).
Local Abbreviation column_values := (Report.column_values Date_parse toISOString).
Local Abbreviation column_width := (Report.column_width Date_parse toISOString).
Local Abbreviation widths_for := (Report.widths_for Date_parse toISOString).
Local Abbreviation newest_first := (Report.newest_first Date_parse).
Local Abbreviation render_sorted := (Report.render_sorted Date_parse toISOString).
Local Abbreviation generateMaliciousPackagesTable :=
  (Report.generateMaliciousPackagesTable Date_parse toISOString).

Lemma dateAdded_parsable pkg : parsable pkg → dateAdded pkg = Returned (date_text pkg).
Proof.
  intros [t Ht]. unfold Report.dateAdded, Report.date_text. by rewrite Ht.
Qed.

Lemma dateAdded_invalid pkg :
  Date_parse (created pkg) = None → dateAdded pkg = Thrown (RangeError "Invalid time value").
Proof. intros Hnone. unfold Report.dateAdded. by rewrite Hnone. Qed.

(** The first [forEach]: the running maxima end as the maxima over the
    whole array. *)
Lemma forEach_measure rows : ∀ w,
  Forall parsable rows →
  forEach measure rows w
  = Returned
      {| maxDateLength :=
           Nat.max (maxDateLength w) (list_max (List.map String.length (column_values 0 rows)));
         maxEcosystemLength :=
           Nat.max (maxEcosystemLength w)
                   (list_max (List.map String.length (column_values 1 rows)));
         maxPackageNameLength :=
           Nat.max (maxPackageNameLength w)
                   (list_max (List.map String.length (column_values 2 rows)));
         maxVersionLength :=
           Nat.max (maxVersionLength w)
                   (list_max (List.map String.length (column_values 3 rows))) |}.
Proof.
  induction rows as [| pkg rest IH]; intros w Hall.
  - simpl. rewrite !Nat.max_0_r. by destruct w.
  - inversion Hall as [| ? ? Hpkg Hrest]; subst.
    cbn [forEach]. unfold Report.measure at 1.
    rewrite (dateAdded_parsable _ Hpkg). cbn [bind].
    rewrite (IH _ Hrest). cbn [maxDateLength maxEcosystemLength maxPackageNameLength
      maxVersionLength Report.column_values List.map list_max fold_right
      Report.row_values nth].
    by rewrite !Nat.max_assoc.
Qed.

Lemma forEach_measure_initial rows :
  Forall parsable rows → forEach measure rows initial_widths = Returned (widths_for rows).
Proof. intros Hall. by rewrite forEach_measure. Qed.

(** The first [forEach] throws as soon as it meets an invalid date. *)
Lemma forEach_measure_throws rows : ∀ w,
  Exists (fun pkg => Date_parse (created pkg) = None) rows →
  forEach measure rows w = Thrown (RangeError "Invalid time value").
Proof.
  induction rows as [| pkg rest IH]; intros w Hex; [by inversion Hex |].
  cbn [forEach]. unfold Report.measure at 1.
  destruct (Date_parse (created pkg)) as [t |] eqn:Hparse.
  - rewrite (dateAdded_parsable pkg) by (by exists t). cbn [bind].
    apply IH. inversion Hex as [? ? Hhead | ? ? Htail]; subst; [congruence | done].
  - by rewrite (dateAdded_invalid _ Hparse).
Qed.

(** The second [forEach]: one line for each element, in order. *)
Lemma forEach_add_row w rows : ∀ table,
  Forall parsable rows →
  forEach (add_row w) rows table
  = Returned (table +:+ concat_lines (List.map (row_line w) rows)).
Proof.
  induction rows as [| pkg rest IH]; intros table Hall.
  - simpl. by rewrite append_empty_r.
  - inversion Hall as [| ? ? Hpkg Hrest]; subst.
    cbn [forEach]. unfold Report.add_row at 1.
    rewrite (dateAdded_parsable _ Hpkg). cbn [bind].
    rewrite (IH _ Hrest). cbn [List.map concat_lines fold_right].
    by rewrite append_assoc.
Qed.

Lemma render_sorted_parsable table sorted :
  Forall parsable sorted →
  render_sorted table sorted
  = Returned (table +:+ header (widths_for sorted) +:+ separator (widths_for sorted)
              +:+ concat_lines (List.map (row_line (widths_for sorted)) sorted)
              +:+ table_note).
Proof.
  intros Hall. unfold Report.render_sorted.
  rewrite (forEach_measure_initial _ Hall). cbn [bind].
  rewrite (forEach_add_row _ _ _ Hall). cbn [bind].
  by rewrite !append_assoc.
Qed.

(** What the method does on a store that holds the array. *)
Lemma generate_from_store now store threatPackages pkgs :
  store !! threatPackages = Some pkgs →
  pkgs ≠ [] →
  fst (generateMaliciousPackagesTable now store threatPackages)
  = render_sorted (table_heading toISOString now (List.length pkgs))
                  (sort compareCreated pkgs).
Proof.
  intros Hstore Hne. unfold Report.generateMaliciousPackagesTable.
  assert (array_at store threatPackages = pkgs) as Harr.
  { unfold array_at. by rewrite Hstore. }
  rewrite Harr.
  destruct pkgs as [| pkg rest]; [done |]. cbn [List.length Nat.eqb].
  pose proof (sort_copy_result compareCreated store threatPackages) as Hcopy.
  destruct (spread store threatPackages) as [copy store'].
  cbn [fst snd] in *. by rewrite Hcopy, Harr.
Qed.

Lemma generate_frame now store threatPackages r :
  is_Some (store !! r) →
  snd (generateMaliciousPackagesTable now store threatPackages) !! r = store !! r.
Proof.
  intros Hsome. unfold Report.generateMaliciousPackagesTable.
  destruct (Nat.eqb _ 0); [done |].
  pose proof (sort_copy_frame compareCreated store threatPackages r Hsome) as Hframe.
  by destruct (spread store threatPackages) as [copy store'].
Qed.

Lemma newest_first_trans a b c : newest_first a b → newest_first b c → newest_first a c.
Proof.
  intros (ta & tb & Ha & Hb & Hab) (tb' & tc & Hb' & Hc & Hbc).
  exists ta, tc. repeat split; [done .. |]. rewrite Hb in Hb'. injection Hb' as <-. lia.
Qed.

Lemma sort_newest_first pkgs :
  Forall parsable pkgs → StronglySorted newest_first (sort compareCreated pkgs).
Proof.
  apply sort_ordered.
  - apply newest_first_trans.
  - intros a b [ta Ha] [tb Hb]. unfold stays_before, Report.compareCreated.
    rewrite Ha, Hb. intros Hle. exists ta, tb. repeat split; [done .. |]. lia.
  - intros a b [ta Ha] [tb Hb]. unfold stays_before, Report.compareCreated.
    rewrite Ha, Hb. intros Hle. exists tb, ta. repeat split; [done .. |]. lia.
Qed.

(** No value of a column is longer than the column is wide. *)
Lemma value_fits i rows pkg :
  In pkg rows → (String.length (nth i (row_values pkg) "") <= column_width i rows)%nat.
Proof.
  intros Hin. unfold Report.column_width.
  assert (Forall (fun k => k <= list_max (List.map String.length (column_values i rows)))%nat
                 (List.map String.length (column_values i rows))) as Hall
    by (by apply list_max_le).
  rewrite List.Forall_forall in Hall.
  etrans; [| apply Nat.le_max_r]. apply Hall.
  apply in_map. unfold Report.column_values.
  by apply (in_map (fun pkg => nth i (row_values pkg) "")).
Qed.

Lemma padEnd_padded value width :
  (String.length value <= width)%nat → padded_to width value (padEnd value width).
Proof.
  intros Hle. split; [by eexists | by apply padEnd_length].
Qed.

Lemma row_line_is_row rows pkg :
  In pkg rows →
  table_row (widths_list (widths_for rows)) (row_values pkg) (row_line (widths_for rows) pkg).
Proof.
  intros Hin. unfold table_row, Report.row_line, row_of. do 4 eexists.
  split; [reflexivity |].
  cbn [widths_list Report.widths_for maxDateLength maxEcosystemLength maxPackageNameLength
       maxVersionLength Report.row_values combine].
  constructor; [apply padEnd_padded, (value_fits 0 rows pkg Hin) |].
  constructor; [apply padEnd_padded, (value_fits 1 rows pkg Hin) |].
  constructor; [apply padEnd_padded, (value_fits 2 rows pkg Hin) |].
  constructor; [apply padEnd_padded, (value_fits 3 rows pkg Hin) |].
  constructor.
Qed.

Lemma header_is_row rows :
  table_row (widths_list (widths_for rows)) column_headers (header (widths_for rows)).
Proof.
  unfold table_row, header, row_of. do 4 eexists. split; [reflexivity |].
  cbn [widths_list Report.widths_for maxDateLength maxEcosystemLength maxPackageNameLength
       maxVersionLength column_headers combine].
  do 4 (constructor; [apply padEnd_padded, Nat.le_max_l |]).
  constructor.
Qed.

End Facts.

Lemma Forall2_map_of {A B} (P : A -> B -> Prop) (f : A -> B) (l : list A) :
  (∀ x, In x l → P x (f x)) → Forall2 P l (List.map f l).
Proof.
  induction l as [| x l IH]; intros Hall; simpl; constructor.
  - apply Hall. by left.
  - apply IH. intros y Hy. apply Hall. by right.
Qed.

Lemma orUnknown_spec s : orUnknown s = if decide (s = "") then "Unknown" else s.
Proof.
  unfold orUnknown. destruct (String.eqb_spec s ""), (decide (s = "")); congruence.
Qed.

(** C7. For a non-empty array of threat entries whose dates all parse,
    the table is the heading, the header line, the separator, one line for
    each entry and the note; the lines follow the entries sorted newest
    first; every line, the header line included, is four cells between
    pipes, each cell its value followed by spaces up to the width of its
    column; the width of a column is the larger of its header's length
    and the length of every value under it; and the values of an entry
    are its date, ecosystem, name and version, with [Unknown] in the place
    of an empty ecosystem, name or version. *)
Theorem table_sorted_and_padded Date_parse toISOString now store threatPackages pkgs :
  store !! threatPackages = Some pkgs →
  pkgs ≠ [] →
  all_parsable Date_parse pkgs →
  ∃ sorted lines,
    let w := widths_for Date_parse toISOString sorted in
    fst (generateMaliciousPackagesTable Date_parse toISOString now store threatPackages)
    = Returned (table_heading toISOString now (List.length pkgs)
                +:+ header w +:+ separator w +:+ concat_lines lines +:+ table_note)
    ∧ Permutation sorted pkgs
    ∧ StronglySorted (newest_first Date_parse) sorted
    ∧ Forall2 (fun pkg line =>
                 table_row (widths_list w) (row_values Date_parse toISOString pkg) line)
              sorted lines
    ∧ table_row (widths_list w) column_headers (header w)
    ∧ Forall (fun pkg =>
                row_values Date_parse toISOString pkg
                = [date_text Date_parse toISOString pkg;
                   if decide (ecosystem pkg = "") then "Unknown" else ecosystem pkg;
                   if decide (name pkg = "") then "Unknown" else name pkg;
                   if decide (version pkg = "") then "Unknown" else version pkg])
             sorted.
Proof.
  intros Hstore Hne Hall.
  set (sorted := sort (compareCreated Date_parse) pkgs).
  assert (Permutation sorted pkgs) as Hperm by apply sort_perm.
  assert (all_parsable Date_parse sorted) as Hsorted_all.
  { unfold all_parsable. by rewrite Hperm. }
  exists sorted,
    (List.map (row_line Date_parse toISOString (widths_for Date_parse toISOString sorted))
              sorted).
  cbv zeta. split; [| split; [done | split; [| split; [| split]]]].
  - rewrite (generate_from_store _ _ _ _ _ _ Hstore Hne).
    by rewrite (render_sorted_parsable _ _ _ _ Hsorted_all).
  - by apply sort_newest_first.
  - apply Forall2_map_of. intros pkg Hin. by apply row_line_is_row.
  - apply header_is_row.
  - apply List.Forall_forall. intros pkg _. unfold row_values.
    by rewrite !orUnknown_spec.
Qed.

Lemma table_sorted_and_padded_witness :
  (∃ sorted lines,
     let w := widths_for ReferenceDate.Date_parse ReferenceDate.toISOString sorted in
     fst (generateMaliciousPackagesTable ReferenceDate.Date_parse ReferenceDate.toISOString
            1730577600123 Fixtures.store 1%positive)
     = Returned (table_heading ReferenceDate.toISOString 1730577600123 3
                 +:+ header w +:+ separator w +:+ concat_lines lines +:+ table_note)
     ∧ Permutation sorted [Fixtures.a1; Fixtures.a2; Fixtures.b1]
     ∧ StronglySorted (newest_first ReferenceDate.Date_parse) sorted
     ∧ Forall2 (fun pkg line =>
                  table_row (widths_list w)
                    (row_values ReferenceDate.Date_parse ReferenceDate.toISOString pkg) line)
               sorted lines
     ∧ table_row (widths_list w) column_headers (header w)
     ∧ Forall (fun pkg =>
                 row_values ReferenceDate.Date_parse ReferenceDate.toISOString pkg
                 = [date_text ReferenceDate.Date_parse ReferenceDate.toISOString pkg;
                    if decide (ecosystem pkg = "") then "Unknown" else ecosystem pkg;
                    if decide (name pkg = "") then "Unknown" else name pkg;
                    if decide (version pkg = "") then "Unknown" else version pkg])
              sorted)
  ∧ fst (generateMaliciousPackagesTable ReferenceDate.Date_parse ReferenceDate.toISOString
           1730577600123 Fixtures.store 1%positive)
    = Returned (concat_lines (List.map (fun line => line +:+ LF)
        [ "MALICIOUS PACKAGES FROM THREAT FEED";
          "=====================================";
          "";
          "Generated: 2024-11-02T20:00:00.123Z";
          "Total packages in threat feed: 3";
          "";
          "| Date Added | Ecosystem | Package Name | Package Version |";
          "|------------|-----------|--------------|-----------------|";
          "| 2024-06-01 | Unknown   | Left-Pad     | 1.0             |";
          "| 2024-01-01 | npm       | a            | 1.0             |";
          "| 2023-06-15 | npm       | a            | 2.0             |";
          "";
          "Note: This table contains all packages from the Phylum threat feed.";
          "Packages that match your project libraries are highlighted in the summary.txt file."
        ])).
Proof.
  split.
  - apply (table_sorted_and_padded ReferenceDate.Date_parse ReferenceDate.toISOString
             1730577600123 Fixtures.store 1%positive
             [Fixtures.a1; Fixtures.a2; Fixtures.b1]).
    + reflexivity.
    + discriminate.
    + repeat constructor; eexists; reflexivity.
  - vm_compute. reflexivity.
Defined.

(** C8. An array that holds an entry whose date does not parse gets no
    table: the call throws the [RangeError] of [toISOString], after the
    sort of the copy has gone through. *)
Theorem table_throws_on_invalid_date Date_parse toISOString now store threatPackages
    pkgs pkg :
  store !! threatPackages = Some pkgs →
  In pkg pkgs →
  Date_parse (created pkg) = None →
  fst (generateMaliciousPackagesTable Date_parse toISOString now store threatPackages)
  = Thrown (RangeError "Invalid time value")
  ∧ ∃ copy,
      snd (generateMaliciousPackagesTable Date_parse toISOString now store threatPackages)
        !! copy
      = Some (sort (compareCreated Date_parse) pkgs).
Proof.
  intros Hstore Hin Hnone.
  assert (pkgs ≠ []) as Hne by (intros ->; inversion Hin).
  split.
  - rewrite (generate_from_store _ _ _ _ _ _ Hstore Hne).
    unfold render_sorted. rewrite forEach_measure_throws; [done |].
    apply List.Exists_exists. exists pkg. split; [| done].
    eapply Permutation_in; [| exact Hin]. symmetry. apply sort_perm.
  - unfold generateMaliciousPackagesTable.
    assert (array_at store threatPackages = pkgs) as Harr.
    { unfold array_at. by rewrite Hstore. }
    rewrite Harr. destruct pkgs as [| p rest]; [done |]. cbn [List.length Nat.eqb].
    unfold spread, sort_in_place. cbn [fst snd].
    exists (fresh (dom store)). rewrite lookup_insert_eq. f_equal.
    unfold array_at at 1. by rewrite lookup_insert_eq, Harr.
Qed.

Lemma table_throws_on_invalid_date_witness :
  fst (generateMaliciousPackagesTable ReferenceDate.Date_parse ReferenceDate.toISOString
         1730577600123 Fixtures.store 2%positive)
  = Thrown (RangeError "Invalid time value").
Proof.
  exact (proj1 (table_throws_on_invalid_date ReferenceDate.Date_parse
                  ReferenceDate.toISOString 1730577600123 Fixtures.store 2%positive
                  [Fixtures.a1; Fixtures.broken] Fixtures.broken
                  eq_refl (or_intror (or_introl eq_refl)) eq_refl)).
Defined.

(** C10. Rendering the table leaves the array it was given, and every
    other array of the store, as it was: the sort works on a copy. *)
Theorem table_leaves_input_unchanged Date_parse toISOString now store threatPackages pkgs :
  store !! threatPackages = Some pkgs →
  snd (generateMaliciousPackagesTable Date_parse toISOString now store threatPackages)
    !! threatPackages = Some pkgs
  ∧ ∀ r, is_Some (store !! r) →
      snd (generateMaliciousPackagesTable Date_parse toISOString now store threatPackages)
        !! r = store !! r.
Proof.
  intros Hstore. split.
  - rewrite generate_frame; [done | by exists pkgs].
  - intros r Hsome. by apply generate_frame.
Qed.

Lemma table_leaves_input_unchanged_witness :
  snd (generateMaliciousPackagesTable ReferenceDate.Date_parse ReferenceDate.toISOString
         1730577600123 Fixtures.store 1%positive) !! 1%positive
  = Some [Fixtures.a1; Fixtures.a2; Fixtures.b1].
Proof.
  exact (proj1 (table_leaves_input_unchanged ReferenceDate.Date_parse
                  ReferenceDate.toISOString 1730577600123 Fixtures.store 1%positive
                  [Fixtures.a1; Fixtures.a2; Fixtures.b1] eq_refl)).
Defined.

Example table_of_three :
  fst (generateMaliciousPackagesTable ReferenceDate.Date_parse ReferenceDate.toISOString
         1730577600123 Fixtures.store 1%positive)
  = Returned (concat_lines (List.map (fun line => line +:+ LF)
      [ "MALICIOUS PACKAGES FROM THREAT FEED";
        "=====================================";
        "";
        "Generated: 2024-11-02T20:00:00.123Z";
        "Total packages in threat feed: 3";
        "";
        "| Date Added | Ecosystem | Package Name | Package Version |";
        "|------------|-----------|--------------|-----------------|";
        "| 2024-06-01 | Unknown   | Left-Pad     | 1.0             |";
        "| 2024-01-01 | npm       | a            | 1.0             |";
        "| 2023-06-15 | npm       | a            | 2.0             |";
        "";
        "Note: This table contains all packages from the Phylum threat feed.";
        "Packages that match your project libraries are highlighted in the summary.txt file."
      ])).
Proof. vm_compute. reflexivity. Qed.

(** Sorting the array itself, without the copy, does rearrange it. *)
Example sort_in_place_rearranges :
  sort_in_place (compareCreated ReferenceDate.Date_parse) Fixtures.store 1%positive
    !! 1%positive
  = Some [Fixtures.b1; Fixtures.a1; Fixtures.a2].
Proof. reflexivity. Qed.

Lemma In_existsb (c : ascii) (l : list ascii) : In c l → existsb (Ascii.eqb c) l = true.
Proof.
  intros Hin. apply existsb_exists. exists c. split; [done | apply Ascii.eqb_refl].
Qed.

Lemma clean_summary_split toISOString now :
  generateSummary toISOString now []
  = summary_before_timestamp +:+ toISOString now +:+ clean_summary_after_timestamp.
Proof.
  unfold generateSummary, summary_heading, summary_before_timestamp,
    clean_summary_after_timestamp.
  cbn [List.length Nat.eqb]. rewrite !append_assoc. reflexivity.
Qed.

(** A summary of no match holds none of the characters [c] that neither
    its fixed text nor a timestamp has. *)
Lemma clean_summary_lacks toISOString now (c : ascii) :
  timestamp_text (toISOString now) = true →
  timestamp_char c = false →
  existsb (Ascii.eqb c) (list_ascii_of_string summary_before_timestamp) = false →
  existsb (Ascii.eqb c) (list_ascii_of_string clean_summary_after_timestamp) = false →
  ¬ In c (list_ascii_of_string (generateSummary toISOString now [])).
Proof.
  intros Hts Hc Hbefore Hafter Hin.
  rewrite clean_summary_split, !chars_append, !in_app_iff in Hin.
  destruct Hin as [Hin | [Hin | Hin]].
  - apply In_existsb in Hin. congruence.
  - unfold timestamp_text in Hts. rewrite forallb_forall in Hts.
    specialize (Hts c Hin). congruence.
  - apply In_existsb in Hin. congruence.
Qed.

(** C9. With no match the summary is the title, the timestamp, the
    count 0 and the two lines of the clean message, and nothing else: it
    holds the clean message, no numbered block (each starts
    [<n>. Package: ]) and no action-required footer. The timestamp is taken
    to be made of timestamp characters. *)
Theorem summary_of_no_matches toISOString now :
  timestamp_text (toISOString now) = true →
  generateSummary toISOString now []
  = "THREAT FEED SECURITY ALERT SUMMARY" +:+ LF
    +:+ "=====================================" +:+ LF
    +:+ LF
    +:+ "Generated: " +:+ toISOString now +:+ LF
    +:+ "Total vulnerable packages found: 0" +:+ LF
    +:+ LF
    +:+ "✅ No vulnerable packages found in your projects." +:+ LF
    +:+ "All packages in your Veracode SCA projects are clean." +:+ LF
  ∧ includes (generateSummary toISOString now [])
      ("✅ No vulnerable packages found in your projects." +:+ LF
       +:+ "All packages in your Veracode SCA projects are clean." +:+ LF)
  ∧ ¬ includes (generateSummary toISOString now []) ". Package: "
  ∧ ¬ includes (generateSummary toISOString now []) "ACTION REQUIRED".
Proof.
  intros Hts. split; [| split; [| split]].
  - rewrite clean_summary_split. reflexivity.
  - rewrite clean_summary_split.
    exists (summary_before_timestamp +:+ toISOString now +:+ LF
            +:+ "Total vulnerable packages found: 0" +:+ LF +:+ LF), "".
    rewrite append_empty_r, !append_assoc. reflexivity.
  - intros Hinc. apply (includes_chars _ _ "P"%char) in Hinc; [| simpl; tauto].
    by apply (clean_summary_lacks toISOString now "P"%char) in Hinc.
  - intros Hinc. apply (includes_chars _ _ "Q"%char) in Hinc; [| simpl; tauto].
    by apply (clean_summary_lacks toISOString now "Q"%char) in Hinc.
Qed.

Lemma summary_of_no_matches_witness :
  generateSummary ReferenceDate.toISOString 1730577600123 []
  = concat_lines (List.map (fun line => line +:+ LF)
      [ "THREAT FEED SECURITY ALERT SUMMARY";
        "=====================================";
        "";
        "Generated: 2024-11-02T20:00:00.123Z";
        "Total vulnerable packages found: 0";
        "";
        "✅ No vulnerable packages found in your projects.";
        "All packages in your Veracode SCA projects are clean." ])
  ∧ includes (generateSummary ReferenceDate.toISOString 1730577600123 [])
      ("✅ No vulnerable packages found in your projects." +:+ LF
       +:+ "All packages in your Veracode SCA projects are clean." +:+ LF)
  ∧ ¬ includes (generateSummary ReferenceDate.toISOString 1730577600123 []) ". Package: "
  ∧ ¬ includes (generateSummary ReferenceDate.toISOString 1730577600123 [])
        "ACTION REQUIRED".
Proof.
  exact (summary_of_no_matches ReferenceDate.toISOString 1730577600123 eq_refl).
Defined.

(** With a match the numbered block and the footer are there. *)
Example summary_of_one_match :
  let m := MatchEngine.mkMatch Fixtures.a1
             (Fixtures.triple (Fixtures.lib "l0" "a" "1.0") (Fixtures.proj "p0")) in
  includes (generateSummary ReferenceDate.toISOString 1730577600123 [m]) "1. Package: a@1.0"
  ∧ includes (generateSummary ReferenceDate.toISOString 1730577600123 [m]) "ACTION REQUIRED".
Proof.
  intros m. split.
  - eexists (summary_heading ReferenceDate.toISOString 1730577600123 1 +:+ alert_message), _.
    cbv. reflexivity.
  - eexists (summary_heading ReferenceDate.toISOString 1730577600123 1 +:+ alert_message
             +:+ match_block 0 m +:+ LF +:+ "⚠️  "), _.
    cbv. reflexivity.
Qed.

End ReportFacts.

(** ** More about findVulnerableMatches *)

Module MatchProperties.
Import MatchEngine MatchEngineFacts.

Lemma findVulnerableMatches_unfold threatPackages allLibraries :
  findVulnerableMatches threatPackages allLibraries
  = List.map (fun p => mkMatch (fst p) (snd p))
      (List.filter qualifies (list_prod threatPackages allLibraries)).
Proof.
  unfold findVulnerableMatches. by rewrite outer_loop_spec.
Qed.

(** X1. A match is in the result exactly when it holds a threat of the
    feed and the library, project and workspace of a triple of the
    inventory whose library has the name and the version of the threat:
    nothing else is reported and no such pair is missed. *)
Theorem match_iff threatPackages allLibraries m :
  In m (findVulnerableMatches threatPackages allLibraries)
  ↔ ∃ threatPackage t,
      In threatPackage threatPackages ∧ In t allLibraries
      ∧ name threatPackage = lib_name (library t)
      ∧ version threatPackage = lib_version (library t)
      ∧ m = {| m_threatPackage := threatPackage; m_library := library t;
               m_project := project t; m_workspace := workspace t |}.
Proof.
  rewrite findVulnerableMatches_unfold, in_map_iff. split.
  - intros ([threatPackage t] & <- & Hin). apply filter_In in Hin as [Hin Hq].
    apply in_prod_iff in Hin as [Ht Hl].
    unfold qualifies in Hq. apply bool_decide_eq_true in Hq as [Hn Hv].
    exists threatPackage, t. auto.
  - intros (threatPackage & t & Ht & Hl & Hn & Hv & ->).
    exists (threatPackage, t). split; [done |].
    apply filter_In. split; [by apply in_prod_iff |].
    unfold qualifies. by apply bool_decide_eq_true.
Qed.

Lemma match_iff_witness :
  In {| m_threatPackage := Fixtures.a1; m_library := Fixtures.lib "l1" "a" "1.0";
        m_project := Fixtures.proj "p1"; m_workspace := Fixtures.w1 |}
     (findVulnerableMatches [Fixtures.a2; Fixtures.a1] [MoreFixtures.t0; MoreFixtures.t1]).
Proof.
  apply (proj2 (match_iff [Fixtures.a2; Fixtures.a1] [MoreFixtures.t0; MoreFixtures.t1] _)).
  exists Fixtures.a1, MoreFixtures.t1. simpl. auto 10.
Defined.

(** X2. There are never more matches than pairs of a threat and a
    triple. *)
Theorem match_count_bound threatPackages allLibraries :
  (List.length (findVulnerableMatches threatPackages allLibraries)
   <= List.length threatPackages * List.length allLibraries)%nat.
Proof.
  rewrite findVulnerableMatches_unfold, length_map, <- length_prod.
  apply filter_length_le.
Qed.

(** X3. Matching a feed given in two parts is matching each part and
    putting the results one after the other; a threat that comes twice
    gives its matches twice. *)
Theorem match_threats_app threats1 threats2 allLibraries :
  findVulnerableMatches (threats1 ++ threats2) allLibraries
  = findVulnerableMatches threats1 allLibraries
    ++ findVulnerableMatches threats2 allLibraries.
Proof.
  unfold findVulnerableMatches at 1. rewrite fold_left_app.
  fold (findVulnerableMatches threats1 allLibraries).
  rewrite outer_loop_spec. unfold matches_spec.
  by rewrite <- findVulnerableMatches_unfold.
Qed.

End MatchProperties.

(** ** More about fetchAllThreatPackages *)

Module FeedProperties.
Import Http ThreatFeed Notions.

Section Facts.
Variable phylum : PhylumApi.

Lemma served_from_nonempty cursor pages : served_from phylum cursor pages → pages ≠ [].
Proof. by intros []. Qed.

Lemma requests_along_more cursor response rest :
  rest ≠ [] →
  requests_along cursor (removelast (response :: rest))
  = url_of cursor :: requests_along (tf_cursor response) (removelast rest).
Proof. destruct rest; [done | reflexivity]. Qed.

Lemma threat_loop_returned fuel : ∀ allPackages cursor requests items requests',
  threat_loop phylum fuel allPackages cursor requests = (Returned items, requests') →
  ∃ pages, served_from phylum cursor pages
    ∧ (List.length pages <= fuel)%nat
    ∧ items = allPackages ++ concat (List.map tf_packages pages)
    ∧ requests' = requests ++ requests_along cursor (removelast pages).
Proof.
  induction fuel as [| fuel IH]; intros allPackages cursor requests items requests' Hrun;
    [discriminate |].
  cbn [threat_loop] in Hrun.
  destruct (phylum (url_of cursor)) as [response | error] eqn:Hget; [| discriminate].
  destruct (truthy (tf_cursor response)) eqn:Hcursor.
  - apply IH in Hrun as (pages & Hserved & Hlen & -> & ->).
    exists (response :: pages). split; [by apply served_more |].
    split; [simpl; lia |]. split.
    + cbn [List.map concat]. by rewrite <- app_assoc.
    + rewrite requests_along_more by (by eapply served_from_nonempty).
      by rewrite <- app_assoc.
  - injection Hrun as <- <-. exists [response].
    split; [by apply served_last |]. split; [simpl; lia |].
    split; [by cbn; rewrite app_nil_r | done].
Qed.

Lemma threat_loop_thrown fuel : ∀ allPackages cursor requests error requests',
  threat_loop phylum fuel allPackages cursor requests = (Thrown error, requests') →
  ∃ pages, fails_from phylum cursor pages error
    ∧ (List.length pages < fuel)%nat
    ∧ requests' = requests ++ requests_along cursor pages.
Proof.
  induction fuel as [| fuel IH]; intros allPackages cursor requests error requests' Hrun;
    [discriminate |].
  cbn [threat_loop] in Hrun.
  destruct (phylum (url_of cursor)) as [response | error'] eqn:Hget.
  - destruct (truthy (tf_cursor response)) eqn:Hcursor; [| discriminate].
    apply IH in Hrun as (pages & Hfails & Hlen & ->).
    exists (response :: pages). split; [by apply fails_later |].
    split; [simpl; lia |]. cbn [requests_along List.map]. by rewrite <- app_assoc.
  - injection Hrun as <- <-. exists []. split; [by apply fails_now |].
    split; [simpl; lia | done].
Qed.

Lemma threat_loop_forever fuel : ∀ allPackages cursor requests,
  (∀ request, ∃ response, phylum request = Ok response
                          ∧ truthy (tf_cursor response) = true) →
  fst (threat_loop phylum fuel allPackages cursor requests) = OutOfFuel
  ∧ List.length (snd (threat_loop phylum fuel allPackages cursor requests))
    = (List.length requests + fuel)%nat.
Proof.
  induction fuel as [| fuel IH]; intros allPackages cursor requests Hall.
  - simpl. split; [done | lia].
  - cbn [threat_loop]. destruct (Hall (url_of cursor)) as (response & -> & ->).
    destruct (IH (allPackages ++ tf_packages response) (tf_cursor response)
                 (requests ++ [url_of cursor]) Hall) as [-> ->].
    rewrite length_app. simpl. split; [done | lia].
Qed.

End Facts.

Lemma threat_loop_same_pages phylum1 phylum2 fuel : ∀ allPackages cursor requests,
  same_pages phylum1 phylum2 →
  threat_loop phylum1 fuel allPackages cursor requests
  = threat_loop phylum2 fuel allPackages cursor requests.
Proof.
  induction fuel as [| fuel IH]; intros allPackages cursor requests Hsame; [done |].
  cbn [threat_loop]. specialize (Hsame (url_of cursor)) as Hhere.
  destruct (phylum1 (url_of cursor)) as [response1 | error1],
           (phylum2 (url_of cursor)) as [response2 | error2]; try done.
  - destruct Hhere as [-> ->]. destruct (truthy (tf_cursor response2)); [| done].
    by apply IH.
  - by subst.
Qed.

(** X4. A list that the fetch returns is never short of a page: it is
    the items of a run of pages served along the cursors from the first
    request to a page without a truthy cursor, in order, and one request
    was made for each. *)
Theorem returned_feed_is_complete phylum fuel items requests :
  fetchAllThreatPackages phylum fuel = (Returned items, requests) →
  ∃ pages, served_from phylum JsUndefined pages
    ∧ items = concat (List.map tf_packages pages)
    ∧ requests = requests_along JsUndefined (removelast pages)
    ∧ List.length requests = List.length pages
    ∧ (List.length pages <= fuel)%nat.
Proof.
  intros Hrun. apply threat_loop_returned in Hrun as (pages & Hserved & Hlen & -> & ->).
  exists pages. repeat split; try done.
  unfold requests_along. cbn [app List.length]. rewrite length_map.
  apply served_from_nonempty in Hserved. clear -Hserved.
  induction pages as [| response [| response' rest] IH]; [done | done |].
  change (removelast (response :: response' :: rest))
    with (response :: removelast (response' :: rest)).
  cbn [List.length]. by rewrite IH.
Qed.

Lemma returned_feed_is_complete_witness :
  ∃ pages, served_from Fixtures.feed JsUndefined pages
    ∧ [Fixtures.a1; Fixtures.a2; Fixtures.b1; Fixtures.broken]
      = concat (List.map tf_packages pages)
    ∧ [FirstPage; AfterCursor (JsNumber 1); AfterCursor (JsNumber 2)]
      = requests_along JsUndefined (removelast pages)
    ∧ 3%nat = List.length pages
    ∧ (List.length pages <= 7)%nat.
Proof.
  exact (returned_feed_is_complete Fixtures.feed 7 _ _ eq_refl).
Defined.

(** X5. An error that the fetch throws is the error of a request that
    failed, the last one made; every request before it was served with a
    truthy cursor. *)
Theorem thrown_feed_error_is_a_failed_request phylum fuel error requests :
  fetchAllThreatPackages phylum fuel = (Thrown error, requests) →
  ∃ pages, fails_from phylum JsUndefined pages error
    ∧ requests = requests_along JsUndefined pages
    ∧ (List.length pages < fuel)%nat.
Proof.
  intros Hrun. apply threat_loop_thrown in Hrun as (pages & Hfails & Hlen & ->).
  by exists pages.
Qed.

Lemma thrown_feed_error_is_a_failed_request_witness :
  ∃ pages, fails_from Fixtures.feed_failing JsUndefined pages Fixtures.timeout
    ∧ [FirstPage; AfterCursor (JsNumber 1)] = requests_along JsUndefined pages
    ∧ (List.length pages < 7)%nat.
Proof.
  exact (thrown_feed_error_is_a_failed_request Fixtures.feed_failing 7 _ _ eq_refl).
Defined.

(** X6. The fetch reads the packages and the cursor of a page and
    nothing else: [has_next] and [has_previous] have no part in what is
    requested or returned. *)
Theorem feed_flags_are_ignored phylum1 phylum2 fuel :
  same_pages phylum1 phylum2 →
  fetchAllThreatPackages phylum1 fuel = fetchAllThreatPackages phylum2 fuel.
Proof. intros Hsame. by apply threat_loop_same_pages. Qed.

Lemma feed_flags_are_ignored_witness :
  fetchAllThreatPackages Fixtures.feed 5
  = fetchAllThreatPackages MoreFixtures.feed_unflagged 5.
Proof.
  apply (feed_flags_are_ignored Fixtures.feed MoreFixtures.feed_unflagged 5).
  intros request. unfold MoreFixtures.feed_unflagged.
  destruct (Fixtures.feed request); [split |]; reflexivity.
Defined.

(** X7. The loop has no bound of its own: against a feed that answers
    every request with a truthy cursor it never returns, and makes as many
    requests as it is given steps. *)
Theorem feed_without_end phylum fuel :
  (∀ request, ∃ response, phylum request = Ok response
                          ∧ truthy (tf_cursor response) = true) →
  fst (fetchAllThreatPackages phylum fuel) = OutOfFuel
  ∧ List.length (snd (fetchAllThreatPackages phylum fuel)) = fuel.
Proof.
  intros Hall. unfold fetchAllThreatPackages.
  by destruct (threat_loop_forever phylum fuel [] JsUndefined [] Hall) as [-> ->].
Qed.

Lemma feed_without_end_witness :
  fst (fetchAllThreatPackages MoreFixtures.feed_forever 40) = OutOfFuel
  ∧ List.length (snd (fetchAllThreatPackages MoreFixtures.feed_forever 40)) = 40%nat.
Proof.
  apply (feed_without_end MoreFixtures.feed_forever 40).
  intros request. eexists. split; reflexivity.
Defined.

End FeedProperties.

(** ** More about the page-number fetchers *)

Module InventoryProperties.
Import Http Inventory InventoryFacts.

Section Loop.
Context {Item Response : Type}.
Variable fetch : nat -> Result Response.
Variable embedded_items : Response -> option (list Item).
Variable page_info : Response -> option PageInfo.

Local Abbreviation loop := (page_loop fetch embedded_items page_info).
Local Abbreviation items_of := (page_items fetch embedded_items).

Lemma items_of_failed page error : fetch page = Err error → items_of page = [].
Proof. intros Hget. unfold page_items. by rewrite Hget. Qed.

(** From a state where nothing was gathered before page 0: the
    requests are for consecutive pages, no error comes out, and a list
    that is returned holds the items of the pages requested. *)
Lemma loop_invariant fuel : ∀ allItems page requests,
  (page = 0%nat → allItems = []) →
  ∃ k, (k <= fuel)%nat
    ∧ snd (loop fuel allItems page requests) = requests ++ seq page k
    ∧ (∀ error, fst (loop fuel allItems page requests) ≠ Thrown error)
    ∧ (∀ items, fst (loop fuel allItems page requests) = Returned items →
         (0 < k)%nat ∧ items = allItems ++ flat_map items_of (seq page k)).
Proof.
  induction fuel as [| fuel IH]; intros allItems page requests Hstart.
  - exists 0%nat. simpl. rewrite app_nil_r. repeat split; try done; lia.
  - cbn [page_loop].
    destruct (fetch page) as [response | error] eqn:Hget.
    + rewrite (push_page_items _ _ _ _ _ Hget).
      destruct (currentPage_of page_info response <? totalPages_of page_info response - 1)%Z.
      * destruct (IH (allItems ++ items_of page) (S page) (requests ++ [page]))
          as (k & Hk & Hreq & Hthrow & Hret); [done |].
        exists (S k). split; [lia |]. split; [| split; [done |]].
        -- rewrite Hreq. cbn [seq]. by rewrite <- app_assoc.
        -- intros items Hitems. apply Hret in Hitems as [_ ->].
           split; [lia |]. cbn [seq flat_map]. by rewrite <- app_assoc.
      * exists 1%nat. cbn [fst snd seq flat_map]. rewrite app_nil_r.
        split; [lia |]. split; [done |]. split; [done |].
        intros items Hitems. injection Hitems as <-. split; [lia | done].
    + exists 1%nat.
      destruct (Nat.eqb_spec page 0) as [Hzero | Hpos];
        cbn [fst snd seq flat_map]; rewrite (items_of_failed _ _ Hget), !app_nil_r;
        (split; [lia |]); (split; [done |]); (split; [done |]);
        intros items Hitems; injection Hitems as <-; (split; [lia |]).
      * by rewrite Hstart.
      * done.
Qed.

End Loop.

Lemma projects_not_thrown veracode fuel workspaceId error :
  fst (fetchProjectsForWorkspace veracode fuel workspaceId) ≠ Thrown error.
Proof.
  unfold fetchProjectsForWorkspace.
  destruct (loop_invariant (getProjects veracode workspaceId) projects_of pr_page
              fuel [] 0%nat []) as (k & _ & _ & Hthrow & _); [done | apply Hthrow].
Qed.

Lemma libraries_not_thrown veracode fuel workspaceId projectId error :
  fst (fetchLibrariesForProject veracode fuel workspaceId projectId) ≠ Thrown error.
Proof.
  unfold fetchLibrariesForProject.
  destruct (loop_invariant (getLibraries veracode workspaceId projectId) libraries_of
              lr_page fuel [] 0%nat []) as (k & _ & _ & Hthrow & _); [done | apply Hthrow].
Qed.

(** X8. The project and library fetchers never throw: whatever the
    endpoint answers, a failed request is not passed on to the caller. *)
Theorem page_fetchers_never_throw veracode fuel workspaceId projectId error :
  fst (fetchProjectsForWorkspace veracode fuel workspaceId) ≠ Thrown error
  ∧ fst (fetchLibrariesForProject veracode fuel workspaceId projectId) ≠ Thrown error.
Proof.
  split; [apply projects_not_thrown | apply libraries_not_thrown].
Qed.

(** X9. Whatever the endpoint answers, the fetchers ask for pages
    0, 1, 2, ... without a gap or a repeat, and a list they return holds
    the items of the pages asked for, in that order (a page that failed
    counting for nothing). *)
Theorem page_fetchers_requests veracode fuel workspaceId projectId :
  let projects := fetchProjectsForWorkspace veracode fuel workspaceId in
  let libraries := fetchLibrariesForProject veracode fuel workspaceId projectId in
  (snd projects = seq 0 (List.length (snd projects))
   ∧ (List.length (snd projects) <= fuel)%nat
   ∧ ∀ items, fst projects = Returned items →
       snd projects ≠ []
       ∧ items = flat_map (page_items (getProjects veracode workspaceId) projects_of)
                          (snd projects))
  ∧ (snd libraries = seq 0 (List.length (snd libraries))
     ∧ (List.length (snd libraries) <= fuel)%nat
     ∧ ∀ items, fst libraries = Returned items →
         snd libraries ≠ []
         ∧ items = flat_map (page_items (getLibraries veracode workspaceId projectId)
                                        libraries_of)
                            (snd libraries)).
Proof.
  cbv zeta. unfold fetchProjectsForWorkspace, fetchLibrariesForProject. split.
  - destruct (loop_invariant (getProjects veracode workspaceId) projects_of pr_page
                fuel [] 0%nat []) as (k & Hk & Hreq & _ & Hret); [done |].
    rewrite Hreq. cbn [app]. rewrite length_seq.
    split; [done |]. split; [done |].
    intros items Hitems. apply Hret in Hitems as [Hpos ->]. cbn [app].
    split; [| done]. destruct k; [lia | done].
  - destruct (loop_invariant (getLibraries veracode workspaceId projectId) libraries_of
                lr_page fuel [] 0%nat []) as (k & Hk & Hreq & _ & Hret); [done |].
    rewrite Hreq. cbn [app]. rewrite length_seq.
    split; [done |]. split; [done |].
    intros items Hitems. apply Hret in Hitems as [Hpos ->]. cbn [app].
    split; [| done]. destruct k; [lia | done].
Qed.

Lemma page_fetchers_requests_witness :
  [Fixtures.proj "p0"; Fixtures.proj "p1"]
  = flat_map (page_items (getProjects (Fixtures.veracode_failing_at 1) "ws-1") projects_of)
             (snd (fetchProjectsForWorkspace (Fixtures.veracode_failing_at 1) 4 "ws-1")).
Proof.
  exact (proj2 (proj2 (proj2 (proj1
           (page_fetchers_requests (Fixtures.veracode_failing_at 1) 4 "ws-1" "p0")))
           [Fixtures.proj "p0"; Fixtures.proj "p1"] eq_refl)).
Defined.

End InventoryProperties.

(** ** Facts about fetchAllLibraries *)

Module FlattenerFacts.
Import Http Inventory Flattener InventoryProperties.

Lemma push_libraries_spec workspace project libraries allLibraries :
  push_libraries workspace project libraries allLibraries
  = allLibraries
    ++ List.map (fun library => {| library := library; project := project;
                                   workspace := workspace |}) libraries.
Proof.
  unfold push_libraries. revert allLibraries.
  induction libraries as [| library rest IH]; intros allLibraries; simpl.
  - by rewrite app_nil_r.
  - by rewrite IH, <- app_assoc.
Qed.

Section Facts.
Variable veracode : VeracodeApi.
Variable fuel : nat.

Lemma projects_loop_spec workspace projects : ∀ allLibraries log,
  (∀ project, In project projects →
     fst (fetchLibrariesForProject veracode fuel (ws_id workspace) (pr_id project))
     ≠ OutOfFuel) →
  ∃ log',
    projects_loop veracode fuel workspace projects allLibraries log
    = (Returned (allLibraries ++ flat_map (triples_of veracode fuel workspace) projects),
       log').
Proof.
  induction projects as [| project rest IH]; intros allLibraries log Hfuel.
  - exists log. simpl. by rewrite app_nil_r.
  - cbn [projects_loop flat_map].
    pose proof (Hfuel project (or_introl eq_refl)) as Hhere.
    pose proof (libraries_not_thrown veracode fuel (ws_id workspace) (pr_id project))
      as Hthrow.
    unfold triples_of at 1, returned.
    destruct (fetchLibrariesForProject veracode fuel (ws_id workspace) (pr_id project))
      as [[libraries | error |] pages]; cbn [fst] in *.
    + rewrite push_libraries_spec.
      destruct (IH (allLibraries ++ List.map
                      (fun library => {| library := library; project := project;
                                         workspace := workspace |}) libraries)
                   (log ++ List.map (GetLibraries (ws_id workspace) (pr_id project)) pages))
        as [log' ->]; [intros p Hp; apply Hfuel; by right |].
      exists log'. by rewrite <- app_assoc.
    + by destruct (Hthrow error).
    + done.
Qed.

Lemma workspaces_loop_spec workspaces : ∀ allLibraries log,
  enough_fuel veracode fuel workspaces →
  ∃ log',
    workspaces_loop veracode fuel workspaces allLibraries log
    = (Returned (allLibraries ++ inventory_of veracode fuel workspaces), log').
Proof.
  induction workspaces as [| workspace rest IH]; intros allLibraries log Hfuel.
  - exists log. simpl. by rewrite app_nil_r.
  - cbn [workspaces_loop inventory_of flat_map].
    destruct (Hfuel workspace (or_introl eq_refl)) as [Hprojects Hlibraries].
    pose proof (projects_not_thrown veracode fuel (ws_id workspace)) as Hthrow.
    unfold projects_in, returned in *.
    destruct (fetchProjectsForWorkspace veracode fuel (ws_id workspace))
      as [[projects | error |] pages]; cbn [fst] in *.
    + destruct (projects_loop_spec workspace projects allLibraries
                  (log ++ List.map (GetProjects (ws_id workspace)) pages) Hlibraries)
        as [log1 ->].
      destruct (IH (allLibraries ++ flat_map (triples_of veracode fuel workspace) projects)
                   log1) as [log' ->]; [intros w Hw; apply Hfuel; by right |].
      exists log'. by rewrite <- app_assoc.
    + by destruct (Hthrow error).
    + done.
Qed.



Lemma fetchAllLibraries_flat workspaces :
  fst (fetchAllWorkspaces veracode) = Returned workspaces →
  enough_fuel veracode fuel workspaces →
  fst (fetchAllLibraries veracode fuel) = Returned (inventory_of veracode fuel workspaces).
Proof.
  intros Hws Hfuel. unfold fetchAllLibraries.
  destruct (fetchAllWorkspaces veracode) as [outcome pages]. cbn [fst] in Hws. subst.
  by destruct (workspaces_loop_spec workspaces [] (List.map GetWorkspaces pages) Hfuel)
    as [log' ->].
Qed.


End Facts.

(** X10. When the workspace list is fetched, the inventory is the
    triples of every library of every project of every workspace, in the
    order the three lists came in, each library with the project and the
    workspace it was fetched under. Lists that a failed request cut short
    or emptied are taken as the fetchers return them. *)
Theorem fetchAllLibraries_flattens veracode fuel workspaces :
  fst (fetchAllWorkspaces veracode) = Returned workspaces →
  enough_fuel veracode fuel workspaces →
  fst (fetchAllLibraries veracode fuel) = Returned (inventory_of veracode fuel workspaces).
Proof. apply fetchAllLibraries_flat. Qed.

Lemma fetchAllLibraries_flattens_witness :
  fst (fetchAllLibraries Fixtures.veracode 3)
  = Returned (inventory_of Fixtures.veracode 3 [Fixtures.w1]).
Proof.
  apply (fetchAllLibraries_flattens Fixtures.veracode 3 [Fixtures.w1] eq_refl).
  intros workspace [<- | []]. split; [vm_compute; discriminate |].
  intros project _. vm_compute. discriminate.
Defined.



End FlattenerFacts.

(** ** More about the two reports *)

Module ReportProperties.
Import Js JsFacts Report ReportFacts Notions.

Lemma length_repeat_string s k :
  String.length (repeat_string s k) = (k * String.length s)%nat.
Proof.
  induction k as [| k IH]; [done |].
  change (repeat_string s (S k)) with (s +:+ repeat_string s k).
  rewrite length_append, IH. lia.
Qed.

Lemma row_of_length w c1 c2 c3 c4 :
  (String.length c1 <= maxDateLength w)%nat →
  (String.length c2 <= maxEcosystemLength w)%nat →
  (String.length c3 <= maxPackageNameLength w)%nat →
  (String.length c4 <= maxVersionLength w)%nat →
  String.length (row_of w c1 c2 c3 c4) = line_length w.
Proof.
  intros H1 H2 H3 H4. unfold row_of, line_length.
  rewrite !length_append, !padEnd_length by done.
  change (String.length "| ") with 2%nat. change (String.length " | ") with 3%nat.
  change (String.length " |") with 2%nat. change (String.length LF) with 1%nat. lia.
Qed.

Lemma separator_length w : String.length (separator w) = line_length w.
Proof.
  unfold separator, line_length.
  rewrite !length_append, !length_repeat_string.
  change (String.length "|") with 1%nat. change (String.length "-") with 1%nat.
  change (String.length LF) with 1%nat. lia.
Qed.

Section Facts.
Variable Date_parse : string -> option Z.
Variable toISOString : Z -> string.

Lemma header_length rows :
  String.length (header (widths_for Date_parse toISOString rows))
  = line_length (widths_for Date_parse toISOString rows).
Proof.
  unfold header. apply row_of_length; apply Nat.le_max_l.
Qed.

Lemma row_line_length rows pkg :
  In pkg rows →
  String.length (row_line Date_parse toISOString (widths_for Date_parse toISOString rows) pkg)
  = line_length (widths_for Date_parse toISOString rows).
Proof.
  intros Hin. unfold row_line. apply row_of_length.
  - apply (value_fits Date_parse toISOString 0 rows pkg Hin).
  - apply (value_fits Date_parse toISOString 1 rows pkg Hin).
  - apply (value_fits Date_parse toISOString 2 rows pkg Hin).
  - apply (value_fits Date_parse toISOString 3 rows pkg Hin).
Qed.

Lemma generate_throws now store threatPackages pkgs pkg :
  store !! threatPackages = Some pkgs →
  In pkg pkgs →
  Date_parse (created pkg) = None →
  fst (generateMaliciousPackagesTable Date_parse toISOString now store threatPackages)
  = Thrown (RangeError "Invalid time value").
Proof.
  intros Hstore Hin Hnone.
  assert (pkgs ≠ []) as Hne by (intros ->; inversion Hin).
  rewrite (generate_from_store _ _ _ _ _ _ Hstore Hne).
  unfold render_sorted. rewrite forEach_measure_throws; [done |].
  apply List.Exists_exists. exists pkg. split; [| done].
  eapply Permutation_in; [| exact Hin]. symmetry. apply sort_perm.
Qed.

Lemma match_block_text index m : match_block index m = block_text (index + 1) m.
Proof. reflexivity. Qed.

Lemma match_blocks_spec matches : ∀ index summary,
  match_blocks index matches summary
  = summary +:+ concat_lines (numbered_blocks index matches).
Proof.
  induction matches as [| m rest IH]; intros index summary; simpl.
  - by rewrite append_empty_r.
  - by rewrite IH, append_assoc, match_block_text.
Qed.

Lemma numbered_blocks_lookup matches : ∀ i index m,
  matches !! i = Some m →
  ∃ before after,
    concat_lines (numbered_blocks index matches)
    = before +:+ block_text (index + i + 1) m +:+ after.
Proof.
  induction matches as [| m' rest IH]; intros i index m Hlook; [done |].
  destruct i as [| i]; simpl in Hlook.
  - injection Hlook as ->. exists "", (concat_lines (numbered_blocks (S index) rest)).
    by rewrite Nat.add_0_r.
  - destruct (IH i (S index) m Hlook) as (before & after & Heq).
    exists (block_text (index + 1) m' +:+ before), after.
    cbn [numbered_blocks concat_lines fold_right].
    change (fold_right String.append "" (numbered_blocks (S index) rest))
      with (concat_lines (numbered_blocks (S index) rest)).
    rewrite Heq, append_assoc.
    by replace (S index + i + 1)%nat with (index + S i + 1)%nat by lia.
Qed.

End Facts.

(** X12. In a table that is rendered, the header line, the separator
    and the line of every entry have the same length: the columns line
    up. *)
Theorem table_lines_have_one_length Date_parse toISOString now store threatPackages pkgs :
  store !! threatPackages = Some pkgs →
  pkgs ≠ [] →
  all_parsable Date_parse pkgs →
  ∃ sorted,
    let w := widths_for Date_parse toISOString sorted in
    fst (generateMaliciousPackagesTable Date_parse toISOString now store threatPackages)
    = Returned (table_heading toISOString now (List.length pkgs)
                +:+ header w +:+ separator w
                +:+ concat_lines (List.map (row_line Date_parse toISOString w) sorted)
                +:+ table_note)
    ∧ Permutation sorted pkgs
    ∧ String.length (separator w) = String.length (header w)
    ∧ Forall (fun pkg => String.length (row_line Date_parse toISOString w pkg)
                         = String.length (header w)) sorted.
Proof.
  intros Hstore Hne Hall.
  set (sorted := sort (compareCreated Date_parse) pkgs).
  assert (Permutation sorted pkgs) as Hperm by apply sort_perm.
  assert (all_parsable Date_parse sorted) as Hsorted_all.
  { unfold all_parsable. by rewrite Hperm. }
  exists sorted. cbv zeta. split; [| split; [done | split]].
  - rewrite (generate_from_store _ _ _ _ _ _ Hstore Hne).
    by rewrite (render_sorted_parsable _ _ _ _ Hsorted_all).
  - by rewrite separator_length, header_length.
  - apply List.Forall_forall. intros pkg Hin.
    by rewrite header_length, row_line_length.
Qed.

Lemma table_lines_have_one_length_witness :
  ∃ sorted,
    let w := widths_for ReferenceDate.Date_parse ReferenceDate.toISOString sorted in
    fst (generateMaliciousPackagesTable ReferenceDate.Date_parse ReferenceDate.toISOString
           1730577600123 Fixtures.store 1%positive)
    = Returned (table_heading ReferenceDate.toISOString 1730577600123 3
                +:+ header w +:+ separator w
                +:+ concat_lines
                      (List.map (row_line ReferenceDate.Date_parse ReferenceDate.toISOString w)
                                sorted)
                +:+ table_note)
    ∧ Permutation sorted [Fixtures.a1; Fixtures.a2; Fixtures.b1]
    ∧ String.length (separator w) = String.length (header w)
    ∧ Forall (fun pkg =>
                String.length (row_line ReferenceDate.Date_parse ReferenceDate.toISOString
                                        w pkg)
                = String.length (header w)) sorted.
Proof.
  apply (table_lines_have_one_length ReferenceDate.Date_parse ReferenceDate.toISOString
           1730577600123 Fixtures.store 1%positive
           [Fixtures.a1; Fixtures.a2; Fixtures.b1]).
  - reflexivity.
  - discriminate.
  - repeat constructor; eexists; reflexivity.
Defined.

(** X13. A summary of at least one match is the heading, the alert, one
    block for each match and the footer; the block of the match at
    position [i] carries the number [i + 1] and the fields of that match,
    so every match is listed, in the order of the match list; the footer is
    the four steps under [ACTION REQUIRED]. *)
Theorem summary_lists_every_match toISOString now matches i m :
  matches !! i = Some m →
  generateSummary toISOString now matches
  = summary_heading toISOString now (List.length matches)
    +:+ ("🚨 IMMEDIATE ATTENTION REQUIRED!" +:+ LF
         +:+ "The following packages in your projects match known threats:" +:+ LF +:+ LF)
    +:+ concat_lines (numbered_blocks 0 matches)
    +:+ (LF +:+ "⚠️  ACTION REQUIRED:" +:+ LF
         +:+ "1. Review the above packages immediately" +:+ LF
         +:+ "2. Update or remove vulnerable packages" +:+ LF
         +:+ "3. Check for alternative secure packages" +:+ LF
         +:+ "4. Run security scans on affected projects" +:+ LF)
  ∧ includes (generateSummary toISOString now matches) (block_text (i + 1) m)
  ∧ includes (generateSummary toISOString now matches)
      (LF +:+ "⚠️  ACTION REQUIRED:" +:+ LF
       +:+ "1. Review the above packages immediately" +:+ LF
       +:+ "2. Update or remove vulnerable packages" +:+ LF
       +:+ "3. Check for alternative secure packages" +:+ LF
       +:+ "4. Run security scans on affected projects" +:+ LF).
Proof.
  intros Hlook.
  assert (generateSummary toISOString now matches
          = summary_heading toISOString now (List.length matches) +:+ alert_message
            +:+ concat_lines (numbered_blocks 0 matches) +:+ action_required) as Heq.
  { unfold generateSummary. destruct matches as [| m' rest]; [done |].
    cbn [List.length Nat.eqb]. by rewrite match_blocks_spec, !append_assoc. }
  split; [exact Heq | split].
  - destruct (numbered_blocks_lookup matches i 0 m Hlook) as (before & after & Hblocks).
    rewrite Heq, Hblocks.
    exists (summary_heading toISOString now (List.length matches) +:+ alert_message
            +:+ before), (after +:+ action_required).
    by rewrite !append_assoc.
  - rewrite Heq.
    exists (summary_heading toISOString now (List.length matches) +:+ alert_message
            +:+ concat_lines (numbered_blocks 0 matches)), "".
    rewrite !append_assoc, append_empty_r. reflexivity.
Qed.

Lemma summary_lists_every_match_witness :
  includes (generateSummary ReferenceDate.toISOString 1730577600123
              MoreFixtures.two_matches)
    (concat_lines (List.map (fun line => line +:+ LF)
       [ "2. Package: a@1.0";
         "   Ecosystem: npm";
         "   Threat Indicators: typosquat";
         "   Workspace: One (ws-1)";
         "   Project: p1 (p1)";
         "   Library ID: l1";
         "   Library License: MIT";
         "   Threat Created: 2024-01-01";
         "   Library Vulnerabilities: 0";
         "" ])).
Proof.
  exact (proj1 (proj2 (summary_lists_every_match ReferenceDate.toISOString 1730577600123
                         MoreFixtures.two_matches 1
                         (MatchEngine.mkMatch Fixtures.a1 MoreFixtures.t1) eq_refl))).
Defined.

End ReportProperties.

(** ** Facts about run *)

Module OrchestratorFacts.
Import Http Js Flattener Orchestrator.

Section Facts.
Variable Date_parse : string -> option Z.
Variable toISOString : Z -> string.
Variable phylum : PhylumApi.
Variable veracode : VeracodeApi.
Variable disk : string -> option string.

Local Abbreviation run := (Orchestrator.run Date_parse toISOString phylum veracode disk).
Local Abbreviation table_of := (Orchestrator.table_for Date_parse toISOString).

(** The run from the point where both fetches have returned. *)
Lemma run_fetched fuel now_summary now_table threatPackages allLibraries :
  fst (ThreatFeed.fetchAllThreatPackages phylum fuel) = Returned threatPackages →
  fst (fetchAllLibraries veracode fuel) = Returned allLibraries →
  run fuel now_summary now_table
  = let phylum_log := snd (ThreatFeed.fetchAllThreatPackages phylum fuel) in
    let veracode_log := snd (fetchAllLibraries veracode fuel) in
    let matches := MatchEngine.findVulnerableMatches threatPackages allLibraries in
    let summary := Report.generateSummary toISOString now_summary matches in
    match table_of now_table threatPackages with
    | OutOfFuel => None
    | Thrown error => Some (aborted (Rejected error) [] phylum_log veracode_log)
    | Returned maliciousPackagesTable =>
        match disk "summary.txt" with
        | Some message => Some (aborted (WriteFailed message) [] phylum_log veracode_log)
        | None =>
            match disk "new-malicious-packages.txt" with
            | Some message =>
                Some (aborted (WriteFailed message) [("summary.txt", summary)]
                        phylum_log veracode_log)
            | None =>
                Some {| files := [("summary.txt", summary);
                                  ("new-malicious-packages.txt", maliciousPackagesTable)];
                        outputs :=
                          [("vulnerable_packages_count", pretty (List.length matches));
                           ("summary_file", "summary.txt");
                           ("malicious_packages_file", "new-malicious-packages.txt")];
                        failed :=
                          if Nat.ltb 0 (List.length matches)
                          then ["Found " +:+ pretty (List.length matches)
                                +:+ " vulnerable packages that require immediate attention!"]
                          else [];
                        exitCode := if Nat.ltb 0 (List.length matches) then 1 else 0;
                        phylum_log := phylum_log; veracode_log := veracode_log |}
            end
        end
    end.
Proof.
  intros Hthreats Hinventory. unfold Orchestrator.run.
  destruct (ThreatFeed.fetchAllThreatPackages phylum fuel) as [threats phylum_log].
  destruct (fetchAllLibraries veracode fuel) as [inventory veracode_log].
  cbn [fst snd] in *. subst. cbv zeta.
  destruct (table_of now_table threatPackages); [| done | done].
  destruct (disk "summary.txt"); [done |].
  destruct (disk "new-malicious-packages.txt"); [done |].
  by destruct (Nat.ltb 0 _).
Qed.

Lemma run_exit_zero fuel now_summary now_table r :
  run fuel now_summary now_table = Some r →
  exitCode r = 0 →
  ∃ threatPackages allLibraries table,
    fst (ThreatFeed.fetchAllThreatPackages phylum fuel) = Returned threatPackages
    ∧ fst (fetchAllLibraries veracode fuel) = Returned allLibraries
    ∧ MatchEngine.findVulnerableMatches threatPackages allLibraries = []
    ∧ table_of now_table threatPackages = Returned table
    ∧ files r = [("summary.txt", Report.generateSummary toISOString now_summary []);
                 ("new-malicious-packages.txt", table)]
    ∧ failed r = [].
Proof.
  intros Hrun Hexit.
  destruct (fst (ThreatFeed.fetchAllThreatPackages phylum fuel))
    as [threatPackages | error |] eqn:Hthreats; cycle 1.
  { unfold Orchestrator.run in Hrun.
    destruct (ThreatFeed.fetchAllThreatPackages phylum fuel) as [threats phylum_log].
    cbn [fst] in Hthreats. subst. injection Hrun as <-. discriminate. }
  { unfold Orchestrator.run in Hrun.
    destruct (ThreatFeed.fetchAllThreatPackages phylum fuel) as [threats phylum_log].
    cbn [fst] in Hthreats. subst. discriminate. }
  destruct (fst (fetchAllLibraries veracode fuel)) as [allLibraries | error |] eqn:Hinventory;
    cycle 1.
  { unfold Orchestrator.run in Hrun.
    destruct (ThreatFeed.fetchAllThreatPackages phylum fuel) as [threats phylum_log].
    destruct (fetchAllLibraries veracode fuel) as [inventory veracode_log].
    cbn [fst] in *. subst. injection Hrun as <-. discriminate. }
  { unfold Orchestrator.run in Hrun.
    destruct (ThreatFeed.fetchAllThreatPackages phylum fuel) as [threats phylum_log].
    destruct (fetchAllLibraries veracode fuel) as [inventory veracode_log].
    cbn [fst] in *. subst. discriminate. }
  rewrite (run_fetched _ _ _ _ _ Hthreats Hinventory) in Hrun. cbv zeta in Hrun.
  exists threatPackages, allLibraries.
  destruct (table_of now_table threatPackages) as [table | error |];
    [| injection Hrun as <-; done | done].
  destruct (disk "summary.txt"); [injection Hrun as <-; done |].
  destruct (disk "new-malicious-packages.txt"); [injection Hrun as <-; done |].
  injection Hrun as <-. cbn [exitCode files failed] in *.
  destruct (MatchEngine.findVulnerableMatches threatPackages allLibraries)
    as [| m rest]; [| done].
  exists table. by repeat split.
Qed.

End Facts.

(** X14. A run that exits with 0 has been served the threat feed page
    after page up to a page without a truthy cursor, has had
    [fetchAllLibraries] return a list (what the project and library
    fetchers returned, which a failed request may have cut short or
    emptied), found no match between the two, rendered the table, and
    written the two files, the summary being the one of no match; it
    reported no failure. *)
Theorem green_run_has_no_match Date_parse toISOString phylum veracode disk
    fuel now_summary now_table r :
  run Date_parse toISOString phylum veracode disk fuel now_summary now_table = Some r →
  exitCode r = 0 →
  ∃ pages allLibraries table,
    ThreatFeed.served_from phylum JsUndefined pages
    ∧ fst (ThreatFeed.fetchAllThreatPackages phylum fuel)
      = Returned (concat (List.map tf_packages pages))
    ∧ fst (fetchAllLibraries veracode fuel) = Returned allLibraries
    ∧ MatchEngine.findVulnerableMatches (concat (List.map tf_packages pages)) allLibraries
      = []
    ∧ table_for Date_parse toISOString now_table (concat (List.map tf_packages pages))
      = Returned table
    ∧ files r = [("summary.txt", Report.generateSummary toISOString now_summary []);
                 ("new-malicious-packages.txt", table)]
    ∧ outputs r = [("vulnerable_packages_count", "0");
                   ("summary_file", "summary.txt");
                   ("malicious_packages_file", "new-malicious-packages.txt")]
    ∧ failed r = [].
Proof.
  intros Hrun Hexit.
  destruct (run_exit_zero _ _ _ _ _ _ _ _ _ Hrun Hexit)
    as (threatPackages & allLibraries & table & Hthreats & Hinventory & Hnone & Htable
        & Hfiles & Hfailed).
  assert (outputs r = [("vulnerable_packages_count", "0");
                       ("summary_file", "summary.txt");
                       ("malicious_packages_file", "new-malicious-packages.txt")])
    as Houtputs.
  { rewrite (run_fetched _ _ _ _ _ _ _ _ _ _ Hthreats Hinventory) in Hrun.
    cbv zeta in Hrun. rewrite Htable, Hnone in Hrun.
    destruct (disk "summary.txt"); [by injection Hrun as <- |].
    destruct (disk "new-malicious-packages.txt"); [by injection Hrun as <- |].
    by injection Hrun as <-. }
  destruct (ThreatFeed.fetchAllThreatPackages phylum fuel) as [outcome requests] eqn:Hfetch.
  cbn [fst] in Hthreats. subst outcome.
  apply FeedProperties.threat_loop_returned in Hfetch
    as (pages & Hserved & _ & Hitems & _).
  cbn [app] in Hitems. subst threatPackages.
  exists pages, allLibraries, table. by repeat split.
Qed.

Lemma green_run_has_no_match_witness :
  ∃ r pages allLibraries table,
    run ReferenceDate.Date_parse ReferenceDate.toISOString MoreFixtures.feed_clean
        Fixtures.veracode MoreFixtures.disk_ok 4 1730577600123 1730577600456 = Some r
    ∧ exitCode r = 0
    ∧ ThreatFeed.served_from MoreFixtures.feed_clean JsUndefined pages
    ∧ fst (ThreatFeed.fetchAllThreatPackages MoreFixtures.feed_clean 4)
      = Returned (concat (List.map tf_packages pages))
    ∧ fst (fetchAllLibraries Fixtures.veracode 4) = Returned allLibraries
    ∧ MatchEngine.findVulnerableMatches (concat (List.map tf_packages pages)) allLibraries
      = []
    ∧ table_for ReferenceDate.Date_parse ReferenceDate.toISOString 1730577600456
        (concat (List.map tf_packages pages)) = Returned table
    ∧ files r = [("summary.txt",
                  Report.generateSummary ReferenceDate.toISOString 1730577600123 []);
                 ("new-malicious-packages.txt", table)]
    ∧ outputs r = [("vulnerable_packages_count", "0");
                   ("summary_file", "summary.txt");
                   ("malicious_packages_file", "new-malicious-packages.txt")]
    ∧ failed r = [].
Proof.
  assert (∃ r,
            run ReferenceDate.Date_parse ReferenceDate.toISOString MoreFixtures.feed_clean
                Fixtures.veracode MoreFixtures.disk_ok 4 1730577600123 1730577600456
            = Some r ∧ exitCode r = 0) as (r & Hrun & Hexit).
  { eexists. split; [vm_compute; reflexivity | reflexivity]. }
  destruct (green_run_has_no_match _ _ _ _ _ _ _ _ r Hrun Hexit)
    as (pages & allLibraries & table & H).
  exists r, pages, allLibraries, table. auto.
Defined.

(** A green run is no proof of a full inventory: with the first page of
    every project list failing, the run against a feed that holds a
    library of the inventory exits with 0, where the run against the
    healthy service exits with 1. *)
Remark green_run_on_emptied_inventory :
  ∃ r r',
    run ReferenceDate.Date_parse ReferenceDate.toISOString MoreFixtures.feed_hit
        (Fixtures.veracode_failing_at 0) MoreFixtures.disk_ok 4 1730577600123 1730577600456
    = Some r
    ∧ exitCode r = 0
    ∧ run ReferenceDate.Date_parse ReferenceDate.toISOString MoreFixtures.feed_hit
        Fixtures.veracode MoreFixtures.disk_ok 4 1730577600123 1730577600456
      = Some r'
    ∧ exitCode r' = 1.
Proof.
  do 2 eexists. split; [vm_compute; reflexivity |]. split; [reflexivity |].
  split; [vm_compute; reflexivity | reflexivity].
Qed.

(** X15. When both fetches return, the table is rendered and the two
    files can be written, a run that finds matches still writes both
    files and sets the three outputs, the count being the number of
    matches; it reports the failure and exits with 1. *)
Theorem matches_fail_the_run Date_parse toISOString phylum veracode disk
    fuel now_summary now_table threatPackages allLibraries table :
  fst (ThreatFeed.fetchAllThreatPackages phylum fuel) = Returned threatPackages →
  fst (fetchAllLibraries veracode fuel) = Returned allLibraries →
  table_for Date_parse toISOString now_table threatPackages = Returned table →
  disk "summary.txt" = None →
  disk "new-malicious-packages.txt" = None →
  MatchEngine.findVulnerableMatches threatPackages allLibraries ≠ [] →
  let matches := MatchEngine.findVulnerableMatches threatPackages allLibraries in
  ∃ r,
    run Date_parse toISOString phylum veracode disk fuel now_summary now_table = Some r
    ∧ exitCode r = 1
    ∧ files r = [("summary.txt", Report.generateSummary toISOString now_summary matches);
                 ("new-malicious-packages.txt", table)]
    ∧ outputs r = [("vulnerable_packages_count", pretty (List.length matches));
                   ("summary_file", "summary.txt");
                   ("malicious_packages_file", "new-malicious-packages.txt")]
    ∧ failed r = ["Found " +:+ pretty (List.length matches)
                  +:+ " vulnerable packages that require immediate attention!"].
Proof.
  intros Hthreats Hinventory Htable Hdisk1 Hdisk2 Hmatches matches.
  rewrite (run_fetched _ _ _ _ _ _ _ _ _ _ Hthreats Hinventory). cbv zeta.
  rewrite Htable, Hdisk1, Hdisk2. eexists. split; [reflexivity |].
  cbn [exitCode files outputs failed]. subst matches.
  destruct (MatchEngine.findVulnerableMatches threatPackages allLibraries); [done |].
  by repeat split.
Qed.

Lemma matches_fail_the_run_witness :
  ∃ r,
    run ReferenceDate.Date_parse ReferenceDate.toISOString MoreFixtures.feed_hit
        Fixtures.veracode MoreFixtures.disk_ok 4 1730577600123 1730577600456 = Some r
    ∧ exitCode r = 1
    ∧ List.map fst (files r) = ["summary.txt"; "new-malicious-packages.txt"]
    ∧ outputs r = [("vulnerable_packages_count", "4");
                   ("summary_file", "summary.txt");
                   ("malicious_packages_file", "new-malicious-packages.txt")].
Proof.
  assert (∃ threatPackages allLibraries table,
            fst (ThreatFeed.fetchAllThreatPackages MoreFixtures.feed_hit 4)
            = Returned threatPackages
            ∧ fst (fetchAllLibraries Fixtures.veracode 4) = Returned allLibraries
            ∧ table_for ReferenceDate.Date_parse ReferenceDate.toISOString 1730577600456
                threatPackages = Returned table
            ∧ MatchEngine.findVulnerableMatches threatPackages allLibraries ≠ []
            ∧ pretty (List.length
                        (MatchEngine.findVulnerableMatches threatPackages allLibraries))
              = "4")
    as (threatPackages & allLibraries & table & H1 & H2 & H3 & H4 & H5).
  { do 3 eexists. split; [vm_compute; reflexivity |].
    split; [vm_compute; reflexivity |]. split; [vm_compute; reflexivity |].
    split; [vm_compute; discriminate | vm_compute; reflexivity]. }
  destruct (matches_fail_the_run ReferenceDate.Date_parse ReferenceDate.toISOString
              MoreFixtures.feed_hit Fixtures.veracode MoreFixtures.disk_ok
              4 1730577600123 1730577600456 threatPackages allLibraries table
              H1 H2 H3 eq_refl eq_refl H4) as (r & Hrun & Hexit & Hfiles & Houtputs & _).
  exists r. rewrite Hfiles, Houtputs, H5. auto.
Defined.

(** X16. When a request of the threat feed fails, the run stops there:
    nothing is asked of Veracode, no file is written, no output is set,
    and the run reports the error and exits with 1. *)
Theorem feed_failure_stops_the_run Date_parse toISOString phylum veracode disk
    fuel now_summary now_table pages error :
  ThreatFeed.fails_from phylum JsUndefined pages error →
  (List.length pages < fuel)%nat →
  ∃ r,
    run Date_parse toISOString phylum veracode disk fuel now_summary now_table = Some r
    ∧ veracode_log r = []
    ∧ phylum_log r = ThreatFeed.requests_along JsUndefined pages
    ∧ files r = []
    ∧ outputs r = []
    ∧ failed r = ["Action failed: " +:+ error_text (Rejected error)]
    ∧ exitCode r = 1.
Proof.
  intros Hfails Hfuel. unfold run, ThreatFeed.fetchAllThreatPackages.
  rewrite (ThreatFeedFacts.threat_loop_fails _ _ _ _ _ _ _ Hfails Hfuel).
  eexists. split; [reflexivity |]. by repeat split.
Qed.

Lemma feed_failure_stops_the_run_witness :
  ∃ r,
    run ReferenceDate.Date_parse ReferenceDate.toISOString Fixtures.feed_failing
        Fixtures.veracode MoreFixtures.disk_ok 4 1730577600123 1730577600456 = Some r
    ∧ veracode_log r = []
    ∧ phylum_log r = [FirstPage; AfterCursor (JsNumber 1)]
    ∧ files r = []
    ∧ outputs r = []
    ∧ failed r = ["Action failed: AxiosError: timeout of 30000ms exceeded"]
    ∧ exitCode r = 1.
Proof.
  apply (feed_failure_stops_the_run ReferenceDate.Date_parse ReferenceDate.toISOString
           Fixtures.feed_failing Fixtures.veracode MoreFixtures.disk_ok 4
           1730577600123 1730577600456 (take 1 Fixtures.feed_pages) Fixtures.timeout).
  - apply ThreatFeed.fails_later; [reflexivity | reflexivity |].
    apply ThreatFeed.fails_now; reflexivity.
  - simpl; lia.
Defined.

(** X17. One entry of the feed whose date does not parse fails the
    whole run, matches or no matches: the inventory is fetched, but no
    file is written and no output is set, and the run exits with 1 on the
    [RangeError] of the table. *)
Theorem invalid_date_fails_the_run Date_parse toISOString phylum veracode disk
    fuel now_summary now_table threatPackages allLibraries pkg :
  fst (ThreatFeed.fetchAllThreatPackages phylum fuel) = Returned threatPackages →
  fst (fetchAllLibraries veracode fuel) = Returned allLibraries →
  In pkg threatPackages →
  Date_parse (created pkg) = None →
  ∃ r,
    run Date_parse toISOString phylum veracode disk fuel now_summary now_table = Some r
    ∧ files r = []
    ∧ outputs r = []
    ∧ failed r = ["Action failed: RangeError: Invalid time value"]
    ∧ exitCode r = 1
    ∧ veracode_log r = snd (fetchAllLibraries veracode fuel).
Proof.
  intros Hthreats Hinventory Hin Hnone.
  rewrite (run_fetched _ _ _ _ _ _ _ _ _ _ Hthreats Hinventory). cbv zeta.
  unfold table_for.
  rewrite (ReportProperties.generate_throws Date_parse toISOString now_table _ 1%positive
             threatPackages pkg (lookup_singleton_eq _ _) Hin Hnone).
  eexists. split; [reflexivity |]. by repeat split.
Qed.

Lemma invalid_date_fails_the_run_witness :
  ∃ r,
    run ReferenceDate.Date_parse ReferenceDate.toISOString Fixtures.feed
        MoreFixtures.veracode_unmatched MoreFixtures.disk_ok 4 1730577600123 1730577600456
    = Some r
    ∧ files r = []
    ∧ outputs r = []
    ∧ failed r = ["Action failed: RangeError: Invalid time value"]
    ∧ exitCode r = 1
    ∧ veracode_log r = snd (fetchAllLibraries MoreFixtures.veracode_unmatched 4).
Proof.
  assert (∃ allLibraries,
            fst (fetchAllLibraries MoreFixtures.veracode_unmatched 4) = Returned allLibraries)
    as [allLibraries Hinventory].
  { eexists. vm_compute. reflexivity. }
  apply (invalid_date_fails_the_run ReferenceDate.Date_parse ReferenceDate.toISOString
           Fixtures.feed MoreFixtures.veracode_unmatched MoreFixtures.disk_ok 4
           1730577600123 1730577600456
           [Fixtures.a1; Fixtures.a2; Fixtures.b1; Fixtures.broken] allLibraries
           Fixtures.broken eq_refl Hinventory).
  - simpl; auto.
  - reflexivity.
Defined.

(** X18. The two files are written one after the other: when the
    second write fails, [summary.txt] stays written, no output is set,
    and the run reports the error and exits with 1, whether or not there
    was a match. *)
Theorem failed_second_write_leaves_summary Date_parse toISOString phylum veracode disk
    fuel now_summary now_table threatPackages allLibraries table message :
  fst (ThreatFeed.fetchAllThreatPackages phylum fuel) = Returned threatPackages →
  fst (fetchAllLibraries veracode fuel) = Returned allLibraries →
  table_for Date_parse toISOString now_table threatPackages = Returned table →
  disk "summary.txt" = None →
  disk "new-malicious-packages.txt" = Some message →
  ∃ r,
    run Date_parse toISOString phylum veracode disk fuel now_summary now_table = Some r
    ∧ files r = [("summary.txt",
                  Report.generateSummary toISOString now_summary
                    (MatchEngine.findVulnerableMatches threatPackages allLibraries))]
    ∧ outputs r = []
    ∧ failed r = ["Action failed: Error: " +:+ message]
    ∧ exitCode r = 1.
Proof.
  intros Hthreats Hinventory Htable Hdisk1 Hdisk2.
  rewrite (run_fetched _ _ _ _ _ _ _ _ _ _ Hthreats Hinventory). cbv zeta.
  rewrite Htable, Hdisk1, Hdisk2. eexists. split; [reflexivity |]. by repeat split.
Qed.

Lemma failed_second_write_leaves_summary_witness :
  ∃ r,
    run ReferenceDate.Date_parse ReferenceDate.toISOString MoreFixtures.feed_clean
        Fixtures.veracode MoreFixtures.disk_half 4 1730577600123 1730577600456 = Some r
    ∧ List.map fst (files r) = ["summary.txt"]
    ∧ outputs r = []
    ∧ failed r = ["Action failed: Error: ENOSPC: no space left on device, write"]
    ∧ exitCode r = 1.
Proof.
  assert (∃ threatPackages allLibraries table,
            fst (ThreatFeed.fetchAllThreatPackages MoreFixtures.feed_clean 4)
            = Returned threatPackages
            ∧ fst (fetchAllLibraries Fixtures.veracode 4) = Returned allLibraries
            ∧ table_for ReferenceDate.Date_parse ReferenceDate.toISOString 1730577600456
                threatPackages = Returned table)
    as (threatPackages & allLibraries & table & H1 & H2 & H3).
  { do 3 eexists. split; [vm_compute; reflexivity |].
    split; vm_compute; reflexivity. }
  destruct (failed_second_write_leaves_summary ReferenceDate.Date_parse
              ReferenceDate.toISOString MoreFixtures.feed_clean Fixtures.veracode
              MoreFixtures.disk_half 4 1730577600123 1730577600456
              threatPackages allLibraries table _ H1 H2 H3 eq_refl eq_refl)
    as (r & Hrun & Hfiles & Houtputs & Hfailed & Hexit).
  exists r. rewrite Hfiles. auto.
Defined.

End OrchestratorFacts.

(** ** Facts about the inputs and the entry point *)

Module InputsFacts.
Import Http Orchestrator Inputs Notions.

Lemma getRequiredInput_value e name envVarName value :
  getRequiredInput e name envVarName = Value value ↔ resolves e name envVarName value.
Proof.
  unfold getRequiredInput, resolves.
  destruct (String.eqb_spec (actionInput e name) "") as [Hempty | Hset]; cbn [negb].
  - destruct (processEnv e envVarName) as [envValue |] eqn:Henv.
    + destruct (String.eqb_spec envValue "") as [Hempty' | Hset']; cbn [negb].
      * split; [done |]. intros [Hne [Hin | [_ [= Heq]]]]; congruence.
      * split.
        -- intros [= <-]. split; [done |]. by right.
        -- intros [Hne [Hin | [_ [= <-]]]]; [congruence | done].
    + split; [done |]. intros [Hne [Hin | [_ Hsome]]]; congruence.
  - split.
    + intros [= <-]. split; [done |]. by left.
    + intros [Hne [Hin | [Hin _]]]; [by rewrite Hin | congruence].
Qed.

Lemma getRequiredInput_missing e name envVarName message :
  getRequiredInput e name envVarName = Missing message
  ↔ absent e name envVarName ∧ message = missing_message name envVarName.
Proof.
  unfold getRequiredInput, absent.
  destruct (String.eqb_spec (actionInput e name) "") as [Hempty | Hset]; cbn [negb].
  - destruct (processEnv e envVarName) as [envValue |] eqn:Henv.
    + destruct (String.eqb_spec envValue "") as [-> | Hset']; cbn [negb].
      * split; [intros [= <-]; auto | by intros [_ ->]].
      * split; [done |]. intros [[_ [Hnone | [= Heq]]] _]; congruence.
    + split; [intros [= <-]; auto | by intros [_ ->]].
  - split; [done |]. by intros [[Hin _] _].
Qed.

Lemma absent_invalid e name envVarName :
  In (name, envVarName) required_parameters →
  absent e name envVarName →
  ∃ message, validateInputs e = Invalid message.
Proof.
  intros Hin Habsent. unfold validateInputs.
  destruct (getRequiredInput e "phylum_api_token" "PHYLUM_API_TOKEN") as [token | m] eqn:H1;
    [| by eexists].
  destruct (getRequiredInput e "veracode_api_id" "VERACODE_API_ID") as [id | m] eqn:H2;
    [| by eexists].
  destruct (getRequiredInput e "veracode_api_key" "VERACODE_API_KEY") as [key | m] eqn:H3;
    [| by eexists].
  apply getRequiredInput_value in H1 as [Hne1 H1], H2 as [Hne2 H2], H3 as [Hne3 H3].
  destruct Habsent as [Hinput Henv].
  simpl in Hin. destruct Hin as [[= <- <-] | [[= <- <-] | [[= <- <-] | []]]].
  - destruct H1 as [H1 | [_ H1]]; [congruence |]. destruct Henv; congruence.
  - destruct H2 as [H2 | [_ H2]]; [congruence |]. destruct Henv; congruence.
  - destruct H3 as [H3 | [_ H3]]; [congruence |]. destruct Henv; congruence.
Qed.

(** X19. A configuration that [validateInputs] returns holds three
    credentials that are not empty; each is the action input, or the
    environment variable when the action input is empty; and the debug flag
    is on exactly when the input [debug] or the variable [DEBUG] is the text
    [true]. *)
Theorem validated_credentials e config warnings :
  validateInputs e = Valid config warnings →
  resolves e "phylum_api_token" "PHYLUM_API_TOKEN" (phylumApiToken config)
  ∧ resolves e "veracode_api_id" "VERACODE_API_ID" (veracodeApiId config)
  ∧ resolves e "veracode_api_key" "VERACODE_API_KEY" (veracodeApiKey config)
  ∧ (debug config = true
     ↔ actionInput e "debug" = "true" ∨ processEnv e "DEBUG" = Some "true").
Proof.
  unfold validateInputs.
  destruct (getRequiredInput e "phylum_api_token" "PHYLUM_API_TOKEN") as [token | m] eqn:H1;
    [| done].
  destruct (getRequiredInput e "veracode_api_id" "VERACODE_API_ID") as [id | m] eqn:H2;
    [| done].
  destruct (getRequiredInput e "veracode_api_key" "VERACODE_API_KEY") as [key | m] eqn:H3;
    [| done].
  intros [= <- _]. cbn [phylumApiToken veracodeApiId veracodeApiKey debug].
  apply getRequiredInput_value in H1, H2, H3.
  refine (conj H1 (conj H2 (conj H3 _))). split.
  - intros Hdebug. apply orb_true_iff in Hdebug as [Hin | Henv].
    + left. by apply String.eqb_eq.
    + right. by apply bool_decide_eq_true in Henv.
  - intros [Hin | Henv]; apply orb_true_iff.
    + left. by apply String.eqb_eq.
    + right. by apply bool_decide_eq_true.
Qed.

Lemma validated_credentials_witness :
  ∃ config warnings,
    validateInputs MoreFixtures.env_inputs = Valid config warnings
    ∧ resolves MoreFixtures.env_inputs "phylum_api_token" "PHYLUM_API_TOKEN"
        (phylumApiToken config)
    ∧ phylumApiToken config = "ph0_0123456789abcdef"
    ∧ debug config = true
    ∧ warnings = [key_warning].
Proof.
  assert (∃ config warnings, validateInputs MoreFixtures.env_inputs = Valid config warnings
                             ∧ phylumApiToken config = "ph0_0123456789abcdef"
                             ∧ debug config = true ∧ warnings = [key_warning])
    as (config & warnings & Hvalid & Htoken & Hdebug & Hwarnings).
  { do 2 eexists. split; [vm_compute; reflexivity |]. by repeat split. }
  destruct (validated_credentials MoreFixtures.env_inputs config warnings Hvalid)
    as (Hresolves & _).
  exists config, warnings. auto.
Defined.

(** X20. Credentials that are set are never turned down for how they
    look: when each of the three parameters is set to something,
    [validateInputs] returns a configuration with exactly those values,
    whatever their prefix or length. *)
Theorem set_credentials_are_accepted e token id key :
  resolves e "phylum_api_token" "PHYLUM_API_TOKEN" token →
  resolves e "veracode_api_id" "VERACODE_API_ID" id →
  resolves e "veracode_api_key" "VERACODE_API_KEY" key →
  ∃ debug warnings,
    validateInputs e
    = Valid {| phylumApiToken := token; veracodeApiId := id; veracodeApiKey := key;
               debug := debug |} warnings.
Proof.
  intros H1 H2 H3. apply getRequiredInput_value in H1, H2, H3.
  unfold validateInputs. rewrite H1, H2, H3. by do 2 eexists.
Qed.

Lemma set_credentials_are_accepted_witness :
  ∃ debug warnings,
    validateInputs MoreFixtures.env_inputs
    = Valid {| phylumApiToken := "ph0_0123456789abcdef";
               veracodeApiId := "0123456789abcdef0123456789abcdef";
               veracodeApiKey := "short-key"; debug := debug |} warnings.
Proof.
  apply (set_credentials_are_accepted MoreFixtures.env_inputs);
    (split; [discriminate | left; reflexivity]).
Defined.

(** X21. When [validateInputs] fails, its message names a parameter that
    is set neither as an action input nor in the environment (or only to
    the empty string). *)
Theorem missing_parameter_is_named e message :
  validateInputs e = Invalid message →
  ∃ name envVarName,
    In (name, envVarName) required_parameters
    ∧ absent e name envVarName
    ∧ message = missing_message name envVarName.
Proof.
  unfold validateInputs.
  destruct (getRequiredInput e "phylum_api_token" "PHYLUM_API_TOKEN") as [token | m] eqn:H1.
  2: { intros [= <-]. apply getRequiredInput_missing in H1 as [Habsent ->].
       exists "phylum_api_token", "PHYLUM_API_TOKEN". simpl. auto. }
  destruct (getRequiredInput e "veracode_api_id" "VERACODE_API_ID") as [id | m] eqn:H2.
  2: { intros [= <-]. apply getRequiredInput_missing in H2 as [Habsent ->].
       exists "veracode_api_id", "VERACODE_API_ID". simpl. auto. }
  destruct (getRequiredInput e "veracode_api_key" "VERACODE_API_KEY") as [key | m] eqn:H3.
  2: { intros [= <-]. apply getRequiredInput_missing in H3 as [Habsent ->].
       exists "veracode_api_key", "VERACODE_API_KEY". simpl. auto. }
  done.
Qed.

Lemma missing_parameter_is_named_witness :
  ∃ name envVarName,
    In (name, envVarName) required_parameters
    ∧ absent MoreFixtures.env_missing_key name envVarName
    ∧ missing_message "veracode_api_key" "VERACODE_API_KEY"
      = missing_message name envVarName.
Proof.
  exact (missing_parameter_is_named MoreFixtures.env_missing_key
           (missing_message "veracode_api_key" "VERACODE_API_KEY") eq_refl).
Defined.

(** X22. With one of the three parameters not set, the entry point sends
    no request to either service, writes no file and sets no output; it
    reports the failure twice (once in [validateInputs], once in its own
    [catch]) and exits with 1. *)
Theorem no_credentials_no_requests Date_parse toISOString phylum_with veracode_with disk
    e fuel now_summary now_table name envVarName :
  In (name, envVarName) required_parameters →
  absent e name envVarName →
  ∃ r message,
    main Date_parse toISOString phylum_with veracode_with disk e fuel now_summary now_table
    = Some r
    ∧ phylum_log r = []
    ∧ veracode_log r = []
    ∧ files r = []
    ∧ outputs r = []
    ∧ failed r = ["Input validation failed: " +:+ message;
                  "Action failed during initialization: " +:+ message]
    ∧ exitCode r = 1.
Proof.
  intros Hin Habsent. destruct (absent_invalid e name envVarName Hin Habsent) as [message Hinv].
  unfold main. rewrite Hinv. do 2 eexists. split; [reflexivity |]. by repeat split.
Qed.

Lemma no_credentials_no_requests_witness :
  ∃ r message,
    main ReferenceDate.Date_parse ReferenceDate.toISOString
      (fun _ => Fixtures.feed) (fun _ _ => Fixtures.veracode) MoreFixtures.disk_ok
      MoreFixtures.env_missing_key 4 1730577600123 1730577600456
    = Some r
    ∧ phylum_log r = []
    ∧ veracode_log r = []
    ∧ files r = []
    ∧ outputs r = []
    ∧ failed r = ["Input validation failed: " +:+ message;
                  "Action failed during initialization: " +:+ message]
    ∧ exitCode r = 1.
Proof.
  apply (no_credentials_no_requests ReferenceDate.Date_parse ReferenceDate.toISOString
           (fun _ => Fixtures.feed) (fun _ _ => Fixtures.veracode) MoreFixtures.disk_ok
           MoreFixtures.env_missing_key 4 1730577600123 1730577600456
           "veracode_api_key" "VERACODE_API_KEY").
  - simpl; auto.
  - split; [reflexivity | right; reflexivity].
Defined.

End InputsFacts.
